(** * Pub/Sub to BigQuery fraud-detection DAG

    A shallow embedding of [pubsub_to_bigquery_fraud_detection.py]: the
    watermark table, the fraud rules, the per-message loop of the pull task
    and the insert task, followed by the properties of the pipeline.

    Conventions of the embedding.
    - Python [float] is IEEE binary64: Rocq's primitive floats.
    - A decoded JSON object is a [gmap string value]; Python [str] is
      restricted to ASCII text.
    - [step] values and watermarks are integers ([Z]); a JSON real in the
      [step] position is outside the data model and stops the embedding
      with [NotModelled].
    - Pub/Sub and BigQuery are the explicit [world]: what is still on the
      subscription, the two tables, the XCom store, a trace of the calls
      made to the two services, and whether an insert request will report
      errors.
    - [datetime(1970, 1, 1).timestamp()] is read in a UTC process, where it
      is [0.0]. *)

From Stdlib Require Import ZArith Floats Ascii String List Permutation Lia Bool.
From stdpp Require Import base option list gmap strings.

#[local] Set Warnings "-inexact-float".
#[local] Open Scope Z_scope.

(** ** Python values and exceptions *)

(** What [json.loads] can put in a dict.  [VOther] stands for a nested
    array or object: no function of the DAG looks inside one. *)
Inductive value : Type :=
  | VNone
  | VBool (b : bool)
  | VInt (z : Z)
  | VFloat (f : float)
  | VStr (s : string)
  | VOther.

Inductive error : Type :=
  | JSONDecodeError
  | AttributeError
  | KeyError (k : string)
  | TypeError
  | ValueError
  | OverflowError
  | WatermarkInsertError
  | RowsInsertError
  | NotModelled.

Inductive res (A : Type) : Type :=
  | Ok (a : A)
  | Raise (e : error).
Arguments Ok {A} a.
Arguments Raise {A} e.

(** State and exceptions: a computation returns a result or an exception,
    and in both cases the state it leaves behind. *)
Definition M (S A : Type) : Type := S -> res A * S.

Definition ret {S A} (a : A) : M S A := fun s => (Ok a, s).
Definition raise {S A} (e : error) : M S A := fun s => (Raise e, s).
Definition bind {S A B} (c : M S A) (k : A -> M S B) : M S B :=
  fun s => match c s with
           | (Ok a, s') => k a s'
           | (Raise e, s') => (Raise e, s')
           end.
Definition lift {S A} (r : res A) : M S A := fun s => (r, s).
Definition get {S} : M S S := fun s => (Ok s, s).
Definition modify {S} (f : S -> S) : M S unit := fun s => (Ok tt, f s).

Declare Scope py_scope.
Delimit Scope py_scope with py.
Notation "'let!' x := c 'in' k" := (bind c (fun x => k))
  (at level 10, x pattern, c at level 200, k at level 200, only parsing) : py_scope.
Notation "c ;; k" := (bind c (fun _ => k))
  (at level 100, k at level 200, only parsing, right associativity) : py_scope.
#[local] Open Scope py_scope.

Definition res_bind {A B} (r : res A) (k : A -> res B) : res B :=
  match r with
  | Ok a => k a
  | Raise e => Raise e
  end.
Notation "'let?' x := r 'in' k" := (res_bind r (fun x => k))
  (at level 10, x pattern, r at level 200, k at level 200, only parsing) : py_scope.

(** ** [float(x)] *)

Module PyFloat.

Definition is_space (c : ascii) : bool :=
let n := Z.of_N (N_of_ascii c) in
((9 <=? n) && (n <=? 13)) || ((28 <=? n) && (n <=? 32)).

Definition digit_of (c : ascii) : option Z :=
let n := Z.of_N (N_of_ascii c) in
if (48 <=? n) && (n <=? 57) then Some (n - 48) else None.

Definition lower (c : ascii) : ascii :=
let n := N_of_ascii c in
if ((65 <=? n) && (n <=? 90))%N then ascii_of_N (n + 32) else c.

(** After a first digit: [(["_"] digit)*].  [acc] is the number read so
  far and [k] counts its digits. *)
Fixpoint digitpart_tail (acc k : Z) (l : list ascii) : Z * Z * list ascii :=
match l with
| c :: l' =>
    match digit_of c with
    | Some d => digitpart_tail (10 * acc + d) (k + 1) l'
    | None =>
        if Ascii.eqb c "_" then
          match l' with
          | c2 :: l'' =>
              match digit_of c2 with
              | Some d => digitpart_tail (10 * acc + d) (k + 1) l''
              | None => (acc, k, l)
              end
          | [] => (acc, k, l)
          end
        else (acc, k, l)
    end
| [] => (acc, k, l)
end.

(** [digit (["_"] digit)*] *)
Definition digitpart (acc k : Z) (l : list ascii) : option (Z * Z * list ascii) :=
match l with
| c :: l' =>
    match digit_of c with
    | Some d => Some (digitpart_tail (10 * acc + d) (k + 1) l')
    | None => None
    end
| [] => None
end.

Definition sign (l : list ascii) : bool * list ascii :=
match l with
| c :: l' =>
    if Ascii.eqb c "-" then (true, l')
    else if Ascii.eqb c "+" then (false, l')
    else (false, l)
| [] => (false, l)
end.

(** [[digitpart] "." digitpart | digitpart ["."]]: the digits read as one
  integer, and how many of them stand after the point. *)
Definition number (l : list ascii) : option (Z * Z * list ascii) :=
match digitpart 0 0 l with
| Some (m, _, rest) =>
    match rest with
    | c :: rest' =>
        if Ascii.eqb c "." then
          match digitpart m 0 rest' with
          | Some r => Some r
          | None => Some (m, 0, rest')
          end
        else Some (m, 0, rest)
    | [] => Some (m, 0, rest)
    end
| None =>
    match l with
    | c :: rest' => if Ascii.eqb c "." then digitpart 0 0 rest' else None
    | [] => None
    end
end.

(** [("e" | "E") [sign] digitpart], when present. *)
Definition exponent (l : list ascii) : option (Z * list ascii) :=
match l with
| c :: l' =>
    if Ascii.eqb (lower c) "e" then
      let '(neg, l'') := sign l' in
      match digitpart 0 0 l'' with
      | Some (x, _, rest) => Some (if neg then - x else x, rest)
      | None => None
      end
    else Some (0, l)
| [] => Some (0, l)
end.

(** The binary64 nearest to [m * 10 ^ e10] (ties to even). *)
Definition round_decimal (neg : bool) (m e10 : Z) : float :=
match m with
| Zpos p =>
    let num := if 0 <=? e10 then Z.to_pos (Zpos p * 10 ^ e10) else p in
    let den := if 0 <=? e10 then 1%positive else Z.to_pos (10 ^ (- e10)) in
    SF2Prim (SFdiv prec emax (S754_finite neg num 0) (S754_finite false den 0))
| _ => if neg then (-0)%float else 0%float
end.

Fixpoint lstrip (l : list ascii) : list ascii :=
match l with
| c :: l' => if is_space c then lstrip l' else l
| [] => []
end.

Definition strip (l : list ascii) : list ascii :=
rev (lstrip (rev (lstrip l))).

Definition of_string (s : string) : option float :=
let '(neg, body) := sign (strip (list_ascii_of_string s)) in
let word := string_of_list_ascii (map lower body) in
if (String.eqb word "inf" || String.eqb word "infinity")%bool
then Some (if neg then neg_infinity else infinity)
else if String.eqb word "nan" then Some nan
else
  match number body with
  | Some (m, k, rest) =>
      match exponent rest with
      | Some (x, []) => Some (round_decimal neg m (x - k))
      | _ => None
      end
  | None => None
  end.

(** [float(n)] for a Python [int]: nearest binary64, [None] when the
  result does not fit (Python raises [OverflowError]). *)
Definition of_int (z : Z) : option float :=
let f := SF2Prim (binary_normalize prec emax z 0 false) in
if is_infinity f then None else Some f.

End PyFloat.

Definition py_float (v : value) : res float :=
  match v with
  | VFloat f => Ok f
  | VInt z => match PyFloat.of_int z with Some f => Ok f | None => Raise OverflowError end
  | VBool b => Ok (if b then 1%float else 0%float)
  | VStr s => match PyFloat.of_string s with Some f => Ok f | None => Raise ValueError end
  | VNone | VOther => Raise TypeError
  end.

(** ** Dicts *)

Abbreviation dict := (gmap string value).

(** [d[k]] *)
Definition getitem (d : dict) (k : string) : res value :=
  match d !! k with
  | Some v => Ok v
  | None => Raise (KeyError k)
  end.

(** [d.get(k, dflt)] *)
Definition dict_get (d : dict) (k : string) (dflt : value) : value :=
  match d !! k with
  | Some v => v
  | None => dflt
  end.

(** [v == s] for a string literal [s]: never raises. *)
Definition py_eq_str (v : value) (s : string) : bool :=
  match v with
  | VStr s' => String.eqb s' s
  | _ => false
  end.

(** The operand of an arithmetic operator or an ordering.  [detect_fraud]
    is only called from [process_transaction], after lines 76-78 stored
    floats in the fields it computes with; an [int] or [bool] operand is
    not modelled. *)
Definition py_num (v : value) : res float :=
  match v with
  | VFloat f => Ok f
  | VInt _ | VBool _ => Raise NotModelled
  | VNone | VStr _ | VOther => Raise TypeError
  end.

(** [v == c] for a numeric literal [c]: [False] on a non-number. *)
Definition py_eq_num (v : value) (c : float) : res bool :=
  match v with
  | VFloat f => Ok (f =? c)%float
  | VInt _ | VBool _ => Raise NotModelled
  | VNone | VStr _ | VOther => Ok false
  end.

Definition py_gt (v : value) (c : float) : res bool :=
  let? f := py_num v in Ok (c <? f)%float.

Definition py_lt (v : value) (c : float) : res bool :=
  let? f := py_num v in Ok (f <? c)%float.

Definition py_sub (a b : value) : res value :=
  let? x := py_num a in
  let? y := py_num b in
  Ok (VFloat (x - y)%float).

Definition py_abs (a : value) : res value :=
  let? x := py_num a in Ok (VFloat (abs x)).

(** ** The fraud rules (lines 47-69) *)

Definition detect_fraud (transaction : dict) : res bool :=
  (* Rule 1: Flag high-value transfers *)
  let? ty := getitem transaction "type" in
  let? rule1 :=
    (if py_eq_str ty "TRANSFER"
     then let? a := getitem transaction "amount" in py_gt a 200000
     else Ok false) in
  if rule1 then Ok true else
  (* Rule 2: Flag transactions that empty an account *)
  let? nb := getitem transaction "newbalanceOrig" in
  let? emptied := py_eq_num nb 0 in
  let? rule2 :=
    (if emptied
     then let? ob := getitem transaction "oldbalanceOrg" in py_gt ob 0
     else Ok false) in
  if rule2 then Ok true else
  (* Rule 3: Flag rapid succession of small transfers: the body is [pass] *)
  let? ty3 := getitem transaction "type" in
  let? _ :=
    (if py_eq_str ty3 "TRANSFER"
     then let? a := getitem transaction "amount" in py_lt a 10
     else Ok false) in
  (* Rule 4: Flag mismatched transaction amounts *)
  let? ob := getitem transaction "oldbalanceOrg" in
  let? nb4 := getitem transaction "newbalanceOrig" in
  let? d1 := py_sub ob nb4 in
  let? a := getitem transaction "amount" in
  let? d2 := py_sub d1 a in
  let? m := py_abs d2 in
  let? rule4 := py_gt m 0.01 in
  if rule4 then Ok true else
  Ok false.

(** ** [process_transaction] (lines 71-85)

    The function assigns into the dict it is given.  [process_transaction]
    is its body as a transformer of that object: on an exception the
    object keeps the assignments made so far. *)

Definition setitem (k : string) (v : value) : M dict unit :=
  modify (fun d : dict => <[k := v]> d).

(** [transaction[k] = float(transaction[k])] *)
Definition coerce (k : string) : M dict unit :=
  let! d := get in
  let! v := lift (getitem d k) in
  let! f := lift (py_float v) in
  setitem k (VFloat f).

Definition process_transaction : M dict unit :=
  coerce "amount" ;;
  coerce "oldbalanceOrg" ;;
  coerce "newbalanceOrig" ;;
  coerce "oldbalanceDest" ;;
  coerce "newbalanceDest" ;;
  let! d := get in
  let! fraud := lift (detect_fraud d) in
  setitem "detected_fraud" (VBool fraud).

(** The call [process_transaction(transaction)] with the objects in a
    store: the argument is a reference, the assignments go to the object
    it points to, and [return transaction] hands the same reference back. *)
Abbreviation heap := (gmap positive dict).

Definition process_transaction_at (transaction : positive) : M heap positive :=
  fun h =>
    match h !! transaction with
    | Some d =>
        let '(r, d') := process_transaction d in
        (match r with Ok _ => Ok transaction | Raise e => Raise e end,
         <[transaction := d']> h)
    | None => (Raise NotModelled, h)
    end.

(** ** Pub/Sub, BigQuery and XCom *)

(** [message.data] by what [json.loads(message.data.decode('utf-8'))]
    makes of it: an exception, a dict, or another JSON value. *)
Inductive payload : Type :=
  | Undecodable
  | JsonObject (d : dict)
  | JsonOther.

Record message : Type := {
  ack_id : string;
  data : payload
}.

Record watermark_row : Type := {
  last_processed_timestamp : Z;
  update_time : string
}.

(** The requests that took effect on the two services, in order. *)
Inductive event : Type :=
  | Acknowledged (id : string)
  | WatermarkInserted (timestamp : Z)
  | RowsInserted (rows : list dict).

Record world : Type := {
  subscription : list message;       (* delivered on pull until acknowledged *)
  watermark_table : list watermark_row;
  target_table : list dict;
  xcom : gmap string (list dict);    (* return values of this run's tasks *)
  trace : list event;
  now : string;                      (* datetime.now().isoformat() *)
  watermark_insert_errors : bool;    (* insert_rows_json will report errors *)
  rows_insert_errors : bool          (* insert_rows will report errors *)
}.

Definition set_subscription (q : list message) (w : world) : world :=
  {| subscription := q; watermark_table := watermark_table w;
     target_table := target_table w; xcom := xcom w; trace := trace w;
     now := now w; watermark_insert_errors := watermark_insert_errors w;
     rows_insert_errors := rows_insert_errors w |}.

Definition set_watermark_table (t : list watermark_row) (w : world) : world :=
  {| subscription := subscription w; watermark_table := t;
     target_table := target_table w; xcom := xcom w; trace := trace w;
     now := now w; watermark_insert_errors := watermark_insert_errors w;
     rows_insert_errors := rows_insert_errors w |}.

Definition set_target_table (t : list dict) (w : world) : world :=
  {| subscription := subscription w; watermark_table := watermark_table w;
     target_table := t; xcom := xcom w; trace := trace w;
     now := now w; watermark_insert_errors := watermark_insert_errors w;
     rows_insert_errors := rows_insert_errors w |}.

Definition set_xcom (x : gmap string (list dict)) (w : world) : world :=
  {| subscription := subscription w; watermark_table := watermark_table w;
     target_table := target_table w; xcom := x; trace := trace w;
     now := now w; watermark_insert_errors := watermark_insert_errors w;
     rows_insert_errors := rows_insert_errors w |}.

Definition record (e : event) (w : world) : world :=
  {| subscription := subscription w; watermark_table := watermark_table w;
     target_table := target_table w; xcom := xcom w; trace := trace w ++ [e];
     now := now w; watermark_insert_errors := watermark_insert_errors w;
     rows_insert_errors := rows_insert_errors w |}.

(** [pubsub_hook.pull(..., max_messages=n, return_immediately=True)] *)
Definition pull (max_messages : nat) : M world (list message) :=
  fun w => (Ok (take max_messages (subscription w)), w).

(** [pubsub_hook.acknowledge(..., [id])] *)
Definition acknowledge (id : string) : M world unit :=
  modify (fun w =>
    record (Acknowledged id)
      (set_subscription
         (filter (fun m => ack_id m <> id) (subscription w)) w)).

(** [context['task_instance'].xcom_pull(task_ids=task)] *)
Definition xcom_pull (task : string) : M world (option (list dict)) :=
  fun w => (Ok (xcom w !! task), w).

(** The operator storing its callable's return value under its task id. *)
Definition xcom_push (task : string) (v : list dict) : M world unit :=
  modify (fun w => set_xcom (<[task := v]> (xcom w)) w).

(** ** The watermark table (lines 25-46) *)

Definition EPOCH : Z := 0.

(** [SELECT MAX(last_processed_timestamp)]: [NULL] on an empty table. *)
Definition max_last_processed (t : list watermark_row) : option Z :=
  match t with
  | [] => None
  | r :: t' =>
      Some (fold_left Z.max (map last_processed_timestamp t')
              (last_processed_timestamp r))
  end.

(** [result[0] if result and result[0] else ...]: [None] and [0] are
    falsy. *)
Definition get_last_watermark (w : world) : Z :=
  match max_last_processed (watermark_table w) with
  | Some m => if m =? 0 then EPOCH else m
  | None => EPOCH
  end.

Definition update_watermark (timestamp : Z) : M world unit :=
  fun w =>
    let rows_to_insert :=
      [ {| last_processed_timestamp := timestamp; update_time := now w |} ] in
    if watermark_insert_errors w
    then (Raise WatermarkInsertError, w)
    else (Ok tt,
          record (WatermarkInserted timestamp)
            (set_watermark_table (watermark_table w ++ rows_to_insert) w)).

(** ** The pull task (lines 87-112) *)

Definition json_loads (p : payload) : res dict :=
  match p with
  | Undecodable => Raise JSONDecodeError
  | JsonObject d => Ok d
  | JsonOther => Raise AttributeError  (* no [.get] on line 100 *)
  end.

(** The number line 102 compares with the watermark. *)
Definition timestamp_of (v : value) : res Z :=
  match v with
  | VInt z => Ok z
  | VBool _ | VFloat _ => Raise NotModelled
  | VNone | VStr _ | VOther => Raise TypeError
  end.

(** The [for message in messages] loop, with its two accumulators. *)
Fixpoint for_messages (last_watermark : Z) (messages : list message)
    (processed_data : list dict) (new_watermark : Z)
    : M world (list dict * Z) :=
  match messages with
  | [] => ret (processed_data, new_watermark)
  | message :: messages' =>
      let! d := lift (json_loads (data message)) in
      let message_timestamp := dict_get d "step" (VInt 0) in
      let! ts := lift (timestamp_of message_timestamp) in
      let! acc :=
        (if ts >? last_watermark
         then
           match process_transaction d with
           | (Ok _, processed_transaction) =>
               ret (processed_data ++ [processed_transaction],
                    Z.max new_watermark ts)
           | (Raise e, _) => raise e
           end
         else ret (processed_data, new_watermark)) in
      acknowledge (ack_id message) ;;
      for_messages last_watermark messages' (fst acc) (snd acc)
  end.

Definition pull_and_process_messages : M world (list dict) :=
  let! w := get in
  let last_watermark := get_last_watermark w in
  let! messages := pull 100 in
  let! acc := for_messages last_watermark messages [] last_watermark in
  let new_watermark := snd acc in
  (if new_watermark >? last_watermark
   then update_watermark new_watermark
   else ret tt) ;;
  ret (fst acc).

(** ** The insert task (lines 114-135) *)

Definition insert_to_bigquery : M world unit :=
  let! processed_data := xcom_pull "pull_pubsub_messages" in
  match processed_data with
  | None | Some [] => ret tt      (* "No new data to insert." *)
  | Some rows_to_insert =>
      fun w =>
        if rows_insert_errors w
        then (Raise RowsInsertError, w)
        else (Ok tt,
              record (RowsInserted rows_to_insert)
                (set_target_table (target_table w ++ rows_to_insert) w))
  end.

(** ** The DAG (lines 137-158): [pull_and_process_task >> insert_task] *)

Definition dag_run : M world unit :=
  let! processed_data := pull_and_process_messages in
  xcom_push "pull_and_process_messages" processed_data ;;
  insert_to_bigquery.

(** ** Specification vocabulary *)

(** One iteration of the loop up to the acknowledgement, as a function of
    the message: what lines 99-105 add to the accumulators, or the
    exception they raise. *)
Definition handle (last_watermark : Z) (m : message) : res (option (dict * Z)) :=
  let? d := json_loads (data m) in
  let? ts := timestamp_of (dict_get d "step" (VInt 0)) in
  if ts >? last_watermark
  then
    match process_transaction d with
    | (Ok _, processed_transaction) => Ok (Some (processed_transaction, ts))
    | (Raise e, _) => Raise e
    end
  else Ok None.

(** The step of a message, whether it is newer than the watermark, and
    the row scoring makes of it. *)
Definition step_of (m : message) : res Z :=
  let? d := json_loads (data m) in
  timestamp_of (dict_get d "step" (VInt 0)).

Definition newer (last_watermark : Z) (m : message) : bool :=
  match step_of m with
  | Ok ts => ts >? last_watermark
  | Raise _ => false
  end.

Definition scored (m : message) : res dict :=
  let? d := json_loads (data m) in
  match process_transaction d with
  | (Ok _, processed_transaction) => Ok processed_transaction
  | (Raise e, _) => Raise e
  end.

(** The accumulators after the handled messages [hs]. *)
Definition accumulate (hs : list (option (dict * Z))) (acc : list dict * Z)
    : list dict * Z :=
  fold_left
    (fun acc h =>
       match h with
       | Some (row, ts) => (fst acc ++ [row], Z.max (snd acc) ts)
       | None => acc
       end)
    hs acc.

(** [float(d[k])] *)
Definition float_field (d : dict) (k : string) : res float :=
  let? v := getitem d k in py_float v.

(** The dict after lines 76-80 stored the five floats. *)
Definition coerced (d : dict) (amount oldbalanceOrg newbalanceOrig
    oldbalanceDest newbalanceDest : float) : dict :=
  <["newbalanceDest" := VFloat newbalanceDest]>
    (<["oldbalanceDest" := VFloat oldbalanceDest]>
       (<["newbalanceOrig" := VFloat newbalanceOrig]>
          (<["oldbalanceOrg" := VFloat oldbalanceOrg]>
             (<["amount" := VFloat amount]> d)))).

Definition written_keys : list string :=
  [ "amount"; "oldbalanceOrg"; "newbalanceOrig"; "oldbalanceDest";
    "newbalanceDest"; "detected_fraud" ]%string.

Definition acknowledge_all (ms : list message) (w : world) : world :=
  fold_left (fun w m => snd (acknowledge (ack_id m) w)) ms w.

(** A run of [update_watermark] calls, one per timestamp. *)
Fixpoint update_watermarks (timestamps : list Z) : M world unit :=
  match timestamps with
  | [] => ret tt
  | t :: timestamps' => update_watermark t ;; update_watermarks timestamps'
  end.

(** The rows a run of [update_watermark] calls appends. *)
Definition watermark_rows (stamp : string) (marks : list Z) : list watermark_row :=
  map (fun t => {| last_processed_timestamp := t; update_time := stamp |}) marks.

Definition is_max_of (m : Z) (l : list Z) : Prop :=
  m ∈ l /\ forall x, x ∈ l -> x <= m.

(** The rules as section 4.2 of the design words them, on the numbers. *)
Definition high_value_transfer (ty : value) (amount : float) : bool :=
  py_eq_str ty "TRANSFER" && (200000 <? amount)%float.

Definition account_drained (oldbalanceOrg newbalanceOrig : float) : bool :=
  (newbalanceOrig =? 0)%float && (0 <? oldbalanceOrg)%float.

Definition rapid_micro_transfer (recent_history : bool) (ty : value)
    (amount : float) : bool :=
  py_eq_str ty "TRANSFER" && (amount <? 10)%float && recent_history.

Definition no_recent_history : bool := false.

Definition mismatch (amount oldbalanceOrg newbalanceOrig : float) : float :=
  abs (oldbalanceOrg - newbalanceOrig - amount)%float.

Definition balance_mismatch (amount oldbalanceOrg newbalanceOrig : float) : bool :=
  (0.01 <? mismatch amount oldbalanceOrg newbalanceOrig)%float.

Definition verdict (ty : value) (amount oldbalanceOrg newbalanceOrig : float) : bool :=
  high_value_transfer ty amount
  || account_drained oldbalanceOrg newbalanceOrig
  || rapid_micro_transfer no_recent_history ty amount
  || balance_mismatch amount oldbalanceOrg newbalanceOrig.

(** Orderings of a trace. *)
Definition is_ack (e : event) : bool :=
  match e with Acknowledged _ => true | _ => false end.

Definition is_commit (e : event) : bool :=
  match e with RowsInserted _ => true | _ => false end.

Definition is_watermark (e : event) : bool :=
  match e with WatermarkInserted _ => true | _ => false end.

(** Every event selected by [late] comes after some event selected by
    [early]: acknowledgement (or watermark advance) only after a commit. *)
Fixpoint only_after (early late : event -> bool) (seen : bool)
    (tr : list event) : bool :=
  match tr with
  | [] => true
  | e :: tr' =>
      (if late e then seen else true)
      && only_after early late (seen || early e) tr'
  end.

(** No event selected by [late] comes before an event selected by
    [early]. *)
Fixpoint all_before (early late : event -> bool) (tr : list event) : bool :=
  match tr with
  | [] => true
  | e :: tr' =>
      (if late e then forallb (fun e' => negb (early e')) tr' else true)
      && all_before early late tr'
  end.

(** ** Sample data *)

Module Sample.

Definition tx (step : Z) (ty : string) (amount oldbalanceOrg newbalanceOrig : value)
  : dict :=
list_to_map
  [ ("step", VInt step); ("type", VStr ty); ("amount", amount);
    ("oldbalanceOrg", oldbalanceOrg); ("newbalanceOrig", newbalanceOrig);
    ("oldbalanceDest", VFloat 0); ("newbalanceDest", VFloat 0) ]%string.

Definition msg (id : string) (d : dict) : message :=
{| ack_id := id; data := JsonObject d |}.

Definition fresh (q : list message) (marks : list Z) : world :=
{| subscription := q;
   watermark_table :=
     map (fun t => {| last_processed_timestamp := t;
                      update_time := "2023-01-01T00:00:00" |}) marks;
   target_table := [];
   xcom := ∅;
   trace := [];
   now := "2023-01-01T00:05:00";
   watermark_insert_errors := false;
   rows_insert_errors := false |}.

Definition payment (step : Z) : dict :=
tx step "PAYMENT" (VStr "10.0") (VInt 50) (VFloat 40).

(** Watermark 100 and steps 90, 101, 105. *)
Definition three_steps : world :=
fresh [ msg "a90" (payment 90); msg "a101" (payment 101);
        msg "a105" (payment 105) ] [100].

(** A valid message, one whose amount is not a number, a valid one. *)
Definition poisoned : world :=
fresh [ msg "a1" (payment 1);
        msg "a2" (tx 2 "PAYMENT" (VStr "not_a_number") (VInt 50) (VFloat 40));
        msg "a3" (payment 3) ] [].

(** One valid message on a first run. *)
Definition first_run : world := fresh [ msg "a5" (payment 5) ] [].


Definition transfer : dict :=
tx 1 "TRANSFER" (VFloat 250000) (VFloat 300000) (VFloat 50000).

Definition boundary : dict :=
tx 1 "PAYMENT" (VFloat 0) (VFloat 0.02) (VFloat 0.01).


Definition store : heap := {[ 1%positive := payment 5 ]}.

(** A first run on which the watermark insert will report errors. *)
Definition failing_watermark : world :=
  {| subscription := [ msg "a5" (payment 5) ];
     watermark_table := [];
     target_table := [];
     xcom := ∅;
     trace := [];
     now := "2023-01-01T00:05:00";
     watermark_insert_errors := true;
     rows_insert_errors := false |}.

(** Watermark 100 and two redelivered messages, one of them with an
    amount that is not a number. *)
Definition stale : world :=
  fresh [ msg "s90" (payment 90);
          msg "s100" (tx 100 "PAYMENT" (VStr "not_a_number") VNone VOther) ]
    [100].

(** 150 valid messages with the same payload and distinct ids. *)
Definition crowd : world :=
  fresh
    (map (fun n => msg (String (ascii_of_nat n) EmptyString) (payment 7))
       (seq 0 150))
    [].

Definition nan_transfer : dict :=
  tx 1 "TRANSFER" (VFloat nan) (VFloat 100) (VFloat 50).

Definition untyped : dict := delete "type"%string (payment 5).

(** A subscription headed by a message whose amount is not a number. *)
Definition blocked : world :=
  fresh [ msg "a2" (tx 2 "PAYMENT" (VStr "not_a_number") (VInt 50) (VFloat 40));
          msg "a3" (payment 3) ] [].

End Sample.

(** * Properties *)

(** ** Running computations *)

Lemma bind_ok {S A B} (c : M S A) (k : A -> M S B) s a s' :
  c s = (Ok a, s') -> bind c k s = k a s'.
Proof. intros H. unfold bind. now rewrite H. Qed.

Lemma bind_raise {S A B} (c : M S A) (k : A -> M S B) s e s' :
  c s = (Raise e, s') -> bind c k s = (Raise e, s').
Proof. intros H. unfold bind. now rewrite H. Qed.

(** ** The watermark table *)

Section FoldMax.

Lemma fold_max_ge_init (l : list Z) (a : Z) : a <= fold_left Z.max l a.
Proof.
revert a. induction l as [|x l IH]; intros a; simpl; [lia|].
specialize (IH (Z.max a x)). lia.
Qed.

Lemma fold_max_ge_elem (l : list Z) (a x : Z) :
x ∈ l -> x <= fold_left Z.max l a.
Proof.
revert a. induction l as [|y l IH]; intros a Hx; simpl.
- inversion Hx.
- apply elem_of_cons in Hx as [->|Hx]; [|now apply IH].
  pose proof (fold_max_ge_init l (Z.max a y)). lia.
Qed.

Lemma fold_max_elem (l : list Z) (a : Z) : fold_left Z.max l a ∈ a :: l.
Proof.
revert a. induction l as [|y l IH]; intros a; simpl.
- apply list_elem_of_here.
- specialize (IH (Z.max a y)).
  apply elem_of_cons in IH as [IH|IH].
  + rewrite IH. destruct (Z.max_spec a y) as [[_ ->]|[_ ->]].
    * apply list_elem_of_further, list_elem_of_here.
    * apply list_elem_of_here.
  + now apply list_elem_of_further, list_elem_of_further.
Qed.

End FoldMax.

Lemma is_max_of_unique (m m' : Z) (l l' : list Z) :
  (forall x, x ∈ l <-> x ∈ l') -> is_max_of m l -> is_max_of m' l' -> m = m'.
Proof.
  intros Hset [Hin Hub] [Hin' Hub'].
  apply Hset in Hin. apply Hset in Hin'.
  specialize (Hub' _ Hin). specialize (Hub _ Hin'). lia.
Qed.

Lemma max_last_processed_is_max (t : list watermark_row) (m : Z) :
  max_last_processed t = Some m ->
  is_max_of m (map last_processed_timestamp t).
Proof.
  destruct t as [|r t]; simpl; [discriminate|].
  intros [= <-]. split.
  - apply fold_max_elem.
  - intros x Hx. apply elem_of_cons in Hx as [->|Hx].
    + apply fold_max_ge_init.
    + now apply fold_max_ge_elem.
Qed.

Lemma get_last_watermark_nonempty (w : world) :
  watermark_table w <> [] ->
  is_max_of (get_last_watermark w)
    (map last_processed_timestamp (watermark_table w)).
Proof.
  intros Hne. unfold get_last_watermark.
  destruct (max_last_processed (watermark_table w)) as [m|] eqn:Hm.
  - apply max_last_processed_is_max in Hm.
    destruct (Z.eqb_spec m 0) as [->|_]; exact Hm.
  - destruct (watermark_table w); [congruence | discriminate].
Qed.



Lemma update_watermark_ok (timestamp : Z) (w : world) :
  watermark_insert_errors w = false ->
  update_watermark timestamp w =
    (Ok tt,
     record (WatermarkInserted timestamp)
       (set_watermark_table
          (watermark_table w ++
             [ {| last_processed_timestamp := timestamp; update_time := now w |} ])
          w)).
Proof. intros H. unfold update_watermark. now rewrite H. Qed.

Lemma update_watermarks_ok (timestamps : list Z) (w : world) :
  watermark_insert_errors w = false ->
  fst (update_watermarks timestamps w) = Ok tt /\
  map last_processed_timestamp
      (watermark_table (snd (update_watermarks timestamps w))) =
    map last_processed_timestamp (watermark_table w) ++ timestamps.
Proof.
  revert w. induction timestamps as [|t ts IH]; intros w Hw; simpl.
  - split; [reflexivity | now rewrite app_nil_r].
  - erewrite bind_ok by now apply update_watermark_ok.
    destruct (IH (record (WatermarkInserted t)
                    (set_watermark_table
                       (watermark_table w ++
                          [ {| last_processed_timestamp := t;
                               update_time := now w |} ]) w)) Hw)
      as [Hr Ht].
    split; [exact Hr|]. rewrite Ht. simpl.
    rewrite map_app, <- app_assoc. reflexivity.
Qed.

(** C6: after any run of [update_watermark] calls whose inserts are
    accepted, [get_last_watermark] returns the largest of all recorded
    values, so two runs recording the same set of values, in any order and
    with any repetitions, are read back alike. *)
Theorem watermark_read_is_max_of_advances (w : world) (vs vs' : list Z) :
  watermark_insert_errors w = false ->
  vs <> [] ->
  (forall x, x ∈ vs <-> x ∈ vs') ->
  fst (update_watermarks vs w) = Ok tt /\
  is_max_of (get_last_watermark (snd (update_watermarks vs w)))
    (map last_processed_timestamp (watermark_table w) ++ vs) /\
  get_last_watermark (snd (update_watermarks vs' w)) =
    get_last_watermark (snd (update_watermarks vs w)).
Proof.
  intros Hw Hne Hset.
  destruct (update_watermarks_ok vs w Hw) as [Hr Ht].
  destruct (update_watermarks_ok vs' w Hw) as [_ Ht'].
  assert (Hmax : forall us, us <> [] ->
            is_max_of (get_last_watermark (snd (update_watermarks us w)))
              (map last_processed_timestamp (watermark_table w) ++ us)).
  { intros us Hus.
    destruct (update_watermarks_ok us w Hw) as [_ Hu].
    rewrite <- Hu. apply get_last_watermark_nonempty.
    intros Hnil. rewrite Hnil in Hu. simpl in Hu.
    symmetry in Hu. apply app_eq_nil in Hu as [_ Hu]. contradiction. }
  assert (Hne' : vs' <> []).
  { destruct vs as [|v vs]; [contradiction|].
    intros ->. specialize (Hset v) as [Hset _].
    specialize (Hset (list_elem_of_here _ _)). inversion Hset. }
  split; [exact Hr|]. split; [now apply Hmax|].
  eapply is_max_of_unique; [| apply (Hmax vs' Hne') | apply (Hmax vs Hne)].
  intros x. rewrite !elem_of_app, Hset. tauto.
Qed.

Lemma watermark_read_is_max_of_advances_witness :
  get_last_watermark (snd (update_watermarks [5; 3; 7; 1] (Sample.fresh [] []))) = 7 /\
  get_last_watermark (snd (update_watermarks [1; 7; 7; 3; 5; 3] (Sample.fresh [] []))) = 7.
Proof.
  assert (Hset : forall x : Z, x ∈ [5; 3; 7; 1] <-> x ∈ [1; 7; 7; 3; 5; 3]).
  { intros x. rewrite !elem_of_cons, !elem_of_nil. tauto. }
  destruct (watermark_read_is_max_of_advances (Sample.fresh [] [])
              [5; 3; 7; 1] [1; 7; 7; 3; 5; 3] eq_refl
              ltac:(discriminate) Hset) as (_ & _ & Heq).
  split; [reflexivity|]. rewrite Heq. reflexivity.
Defined.

(** ** The fraud rules *)

Section Rules.

Variables (t : dict) (ty : value) (amount oldbalanceOrg newbalanceOrig : float).
Hypothesis Hty : t !! "type"%string = Some ty.
Hypothesis Hamount : t !! "amount"%string = Some (VFloat amount).
Hypothesis Hold : t !! "oldbalanceOrg"%string = Some (VFloat oldbalanceOrg).
Hypothesis Hnew : t !! "newbalanceOrig"%string = Some (VFloat newbalanceOrig).

Lemma detect_fraud_verdict :
detect_fraud t = Ok (verdict ty amount oldbalanceOrg newbalanceOrig).
Proof.
unfold detect_fraud, getitem. rewrite Hty, Hamount, Hold, Hnew.
unfold verdict, high_value_transfer, account_drained, rapid_micro_transfer,
  no_recent_history, balance_mismatch, mismatch.
cbn [res_bind py_gt py_lt py_num py_eq_num py_sub py_abs].
destruct (py_eq_str ty "TRANSFER");
  cbn [res_bind py_gt py_lt py_num andb orb];
  destruct (200000 <? amount)%float; cbn [orb andb]; try reflexivity;
  destruct (newbalanceOrig =? 0)%float;
  cbn [res_bind py_gt py_num andb orb];
  destruct (0 <? oldbalanceOrg)%float; cbn [orb andb]; try reflexivity;
  rewrite ?andb_false_r; cbn [orb];
  destruct (0.01 <? abs (oldbalanceOrg - newbalanceOrig - amount))%float;
  reflexivity.
Qed.

End Rules.



(** C3: on a transaction whose numeric fields hold floats, [detect_fraud]
    returns the disjunction of the high-value-transfer, account-drained and
    balance-mismatch rules, the rapid-micro-transfer rule without recent
    history contributing [false]; a TRANSFER above 200000 is flagged. *)
Theorem detect_fraud_is_or_of_rules
    (t : dict) (ty : value) (amount oldbalanceOrg newbalanceOrig : float) :
  t !! "type"%string = Some ty ->
  t !! "amount"%string = Some (VFloat amount) ->
  t !! "oldbalanceOrg"%string = Some (VFloat oldbalanceOrg) ->
  t !! "newbalanceOrig"%string = Some (VFloat newbalanceOrig) ->
  detect_fraud t =
    Ok (high_value_transfer ty amount
        || account_drained oldbalanceOrg newbalanceOrig
        || rapid_micro_transfer no_recent_history ty amount
        || balance_mismatch amount oldbalanceOrg newbalanceOrig) /\
  rapid_micro_transfer no_recent_history ty amount = false /\
  (ty = VStr "TRANSFER" -> (200000 <? amount)%float = true ->
   detect_fraud t = Ok true).
Proof.
  intros Hty Ha Ho Hn.
  pose proof (detect_fraud_verdict t ty amount oldbalanceOrg newbalanceOrig
                Hty Ha Ho Hn) as Hv.
  split; [exact Hv|]. split.
  - unfold rapid_micro_transfer, no_recent_history. apply andb_false_r.
  - intros -> Hbig. rewrite Hv. unfold verdict, high_value_transfer.
    rewrite Hbig. reflexivity.
Qed.

Lemma detect_fraud_is_or_of_rules_witness :
  detect_fraud Sample.transfer = Ok true /\
  detect_fraud Sample.boundary = Ok false.
Proof.
  split.
  - apply (detect_fraud_is_or_of_rules Sample.transfer (VStr "TRANSFER")
             250000 300000 50000 eq_refl eq_refl eq_refl eq_refl);
      reflexivity.
  - rewrite (proj1 (detect_fraud_is_or_of_rules Sample.boundary (VStr "PAYMENT")
                      0 0.02 0.01 eq_refl eq_refl eq_refl eq_refl)).
    reflexivity.
Defined.



(** ** [process_transaction] *)

Lemma coerce_run (k : string) (d : dict) :
  coerce k d =
    match float_field d k with
    | Ok f => (Ok tt, <[k := VFloat f]> d)
    | Raise e => (Raise e, d)
    end.
Proof.
  unfold coerce, float_field, bind, get, lift, setitem, modify. simpl.
  destruct (getitem d k) as [v|e]; simpl; [|reflexivity].
  destruct (py_float v); reflexivity.
Qed.

Lemma float_field_insert_ne (d : dict) (k k' : string) (v : value) :
  k <> k' -> float_field (<[k := v]> d) k' = float_field d k'.
Proof.
  intros Hne. unfold float_field, getitem. now rewrite lookup_insert_ne.
Qed.

Lemma coerce_lookup_ne (k k' : string) (d : dict) :
  k <> k' -> snd (coerce k d) !! k' = d !! k'.
Proof.
  intros Hne. rewrite coerce_run.
  destruct (float_field d k); simpl; [now rewrite lookup_insert_ne | reflexivity].
Qed.

(** Whatever the outcome, the call leaves every key outside
    [written_keys] as it found it. *)
Lemma process_transaction_frame (d : dict) (k : string) :
  k ∉ written_keys ->
  snd (process_transaction d) !! k = d !! k.
Proof.
  intros Hk. unfold written_keys in Hk.
  rewrite !not_elem_of_cons in Hk.
  destruct Hk as (H1 & H2 & H3 & H4 & H5 & H6 & _).
  unfold process_transaction, bind.
  repeat
    (match goal with
     | |- context [coerce ?k' ?d'] =>
         let H := fresh "Hc" in
         let r := fresh "r" in
         let d'' := fresh "d" in
         pose proof (coerce_lookup_ne k' k d' ltac:(congruence)) as H;
         destruct (coerce k' d') as [r d''];
         simpl in H; destruct r; simpl; [|now rewrite ?H in *; congruence]
     end).
  unfold get, lift, setitem, modify.
  destruct (detect_fraud _); simpl;
    rewrite ?lookup_insert_ne by congruence; congruence.
Qed.

(** The call, outcome by outcome: each coercion reads the field as the
    caller passed it, and an exception leaves the earlier assignments. *)
Lemma process_transaction_run (d : dict) :
  process_transaction d =
    match float_field d "amount" with
    | Raise e => (Raise e, d)
    | Ok a =>
    let d1 := <["amount" := VFloat a]> d in
    match float_field d "oldbalanceOrg" with
    | Raise e => (Raise e, d1)
    | Ok ob =>
    let d2 := <["oldbalanceOrg" := VFloat ob]> d1 in
    match float_field d "newbalanceOrig" with
    | Raise e => (Raise e, d2)
    | Ok nb =>
    let d3 := <["newbalanceOrig" := VFloat nb]> d2 in
    match float_field d "oldbalanceDest" with
    | Raise e => (Raise e, d3)
    | Ok od =>
    let d4 := <["oldbalanceDest" := VFloat od]> d3 in
    match float_field d "newbalanceDest" with
    | Raise e => (Raise e, d4)
    | Ok nd =>
    match detect_fraud (coerced d a ob nb od nd) with
    | Raise e => (Raise e, coerced d a ob nb od nd)
    | Ok fraud =>
        (Ok tt, <["detected_fraud" := VBool fraud]> (coerced d a ob nb od nd))
    end end end end end end.
Proof.
  unfold process_transaction, bind, coerced.
  rewrite coerce_run.
  destruct (float_field d "amount") as [a|e]; [|reflexivity].
  rewrite coerce_run, !float_field_insert_ne by discriminate.
  destruct (float_field d "oldbalanceOrg") as [ob|e]; [|reflexivity].
  rewrite coerce_run, !float_field_insert_ne by discriminate.
  destruct (float_field d "newbalanceOrig") as [nb|e]; [|reflexivity].
  rewrite coerce_run, !float_field_insert_ne by discriminate.
  destruct (float_field d "oldbalanceDest") as [od|e]; [|reflexivity].
  rewrite coerce_run, !float_field_insert_ne by discriminate.
  destruct (float_field d "newbalanceDest") as [nd|e]; [|reflexivity].
  unfold get, lift, setitem, modify. cbn zeta.
  destruct (detect_fraud _); reflexivity.
Qed.

Lemma coerced_lookup_ne (d : dict) (a ob nb od nd : float) (k : string) :
  k ∉ written_keys -> coerced d a ob nb od nd !! k = d !! k.
Proof.
  unfold written_keys. rewrite !not_elem_of_cons.
  intros (H1 & H2 & H3 & H4 & H5 & _).
  unfold coerced. now rewrite !lookup_insert_ne by congruence.
Qed.

(** A transaction with a type and five fields [float] accepts is scored:
    the call returns, with the floats stored and the verdict of the rules
    under [detected_fraud]. *)
Lemma process_transaction_ok (d : dict) (ty : value) (a ob nb od nd : float) :
  d !! "type"%string = Some ty ->
  float_field d "amount" = Ok a ->
  float_field d "oldbalanceOrg" = Ok ob ->
  float_field d "newbalanceOrig" = Ok nb ->
  float_field d "oldbalanceDest" = Ok od ->
  float_field d "newbalanceDest" = Ok nd ->
  process_transaction d =
    (Ok tt,
     <["detected_fraud" := VBool (verdict ty a ob nb)]> (coerced d a ob nb od nd)).
Proof.
  intros Hty Ha Hob Hnb Hod Hnd.
  rewrite process_transaction_run, Ha, Hob, Hnb, Hod, Hnd. cbn zeta.
  rewrite (detect_fraud_verdict (coerced d a ob nb od nd) ty a ob nb).
  - reflexivity.
  - rewrite coerced_lookup_ne; [exact Hty|].
    unfold written_keys. rewrite !not_elem_of_cons, elem_of_nil.
    repeat split; try discriminate. tauto.
  - unfold coerced. now rewrite !lookup_insert_ne, lookup_insert_eq by discriminate.
  - unfold coerced. now rewrite !lookup_insert_ne, lookup_insert_eq by discriminate.
  - unfold coerced. now rewrite !lookup_insert_ne, lookup_insert_eq by discriminate.
Qed.

(** Conversely a call that returns has found the five fields coercible. *)
Lemma process_transaction_ok_inv (d d' : dict) :
  process_transaction d = (Ok tt, d') ->
  exists a ob nb od nd fraud,
    float_field d "amount" = Ok a /\
    float_field d "oldbalanceOrg" = Ok ob /\
    float_field d "newbalanceOrig" = Ok nb /\
    float_field d "oldbalanceDest" = Ok od /\
    float_field d "newbalanceDest" = Ok nd /\
    detect_fraud (coerced d a ob nb od nd) = Ok fraud /\
    d' = <["detected_fraud" := VBool fraud]> (coerced d a ob nb od nd).
Proof.
  rewrite process_transaction_run.
  destruct (float_field d "amount") as [a|]; [|discriminate].
  destruct (float_field d "oldbalanceOrg") as [ob|]; [|discriminate].
  destruct (float_field d "newbalanceOrig") as [nb|]; [|discriminate].
  destruct (float_field d "oldbalanceDest") as [od|]; [|discriminate].
  destruct (float_field d "newbalanceDest") as [nd|]; [|discriminate].
  cbn zeta.
  destruct (detect_fraud _) as [fraud|] eqn:Hf; [|discriminate].
  intros [= <-]. exists a, ob, nb, od, nd, fraud. repeat split; assumption.
Qed.

(** C8 (as the code has it): [process_transaction] assigns into the dict it
    is given.  The call changes the store at the argument's reference and
    nowhere else, returns that same reference, leaves the keys it does not
    assign as they were, and on return the object holds the five fields as
    floats and the verdict of [detect_fraud] under [detected_fraud]. *)
Theorem process_transaction_assigns_in_place (h : heap) (l : positive) (d : dict) :
  h !! l = Some d ->
  snd (process_transaction_at l h) = <[l := snd (process_transaction d)]> h /\
  (forall k, k ∉ written_keys -> snd (process_transaction d) !! k = d !! k) /\
  (forall ty a ob nb od nd,
     d !! "type"%string = Some ty ->
     float_field d "amount" = Ok a ->
     float_field d "oldbalanceOrg" = Ok ob ->
     float_field d "newbalanceOrig" = Ok nb ->
     float_field d "oldbalanceDest" = Ok od ->
     float_field d "newbalanceDest" = Ok nd ->
     process_transaction_at l h =
       (Ok l,
        <[l := <["detected_fraud" := VBool (verdict ty a ob nb)]>
                 (coerced d a ob nb od nd)]> h)) /\
  (forall l', fst (process_transaction_at l h) = Ok l' ->
     l' = l /\
     exists a ob nb od nd fraud,
       float_field d "amount" = Ok a /\
       float_field d "oldbalanceOrg" = Ok ob /\
       float_field d "newbalanceOrig" = Ok nb /\
       float_field d "oldbalanceDest" = Ok od /\
       float_field d "newbalanceDest" = Ok nd /\
       detect_fraud (coerced d a ob nb od nd) = Ok fraud /\
       snd (process_transaction_at l h) !! l =
         Some (<["detected_fraud" := VBool fraud]> (coerced d a ob nb od nd))).
Proof.
  intros Hl. unfold process_transaction_at. rewrite Hl.
  destruct (process_transaction d) as [r d'] eqn:Hrun. simpl.
  split; [reflexivity|]. split.
  { intros k Hk. pose proof (process_transaction_frame d k Hk) as Hf.
    now rewrite Hrun in Hf. }
  split.
  { intros ty a ob nb od nd Hty Ha Hob Hnb Hod Hnd.
    rewrite (process_transaction_ok d ty a ob nb od nd) in Hrun by assumption.
    now injection Hrun as <- <-. }
  intros l' Hok. destruct r as [[]|e]; [|discriminate].
  injection Hok as <-. split; [reflexivity|].
  destruct (process_transaction_ok_inv d d' Hrun)
    as (a & ob & nb & od & nd & fraud & Ha & Hob & Hnb & Hod & Hnd & Hf & ->).
  exists a, ob, nb, od, nd, fraud.
  rewrite lookup_insert_eq. repeat split; assumption.
Qed.

Lemma process_transaction_assigns_in_place_witness :
  process_transaction_at 1 Sample.store =
    (Ok 1%positive,
     {[ 1%positive :=
          <["detected_fraud" := VBool false]>
            (coerced (Sample.payment 5) 10 50 40 0 0) ]}).
Proof.
  destruct (process_transaction_assigns_in_place Sample.store 1
              (Sample.payment 5) eq_refl) as (_ & _ & Hrun & _).
  rewrite (Hrun (VStr "PAYMENT") 10%float 50%float 40%float 0%float 0%float
             eq_refl eq_refl eq_refl eq_refl eq_refl eq_refl).
  reflexivity.
Defined.

(** C8 (as stated) fails: the dict passed in has no [detected_fraud] and a
    string amount before the call, and the same object (the reference
    returned is the one passed) has both changed after it. *)
Lemma process_transaction_mutates_argument :
  Sample.store !! 1%positive = Some (Sample.payment 5) /\
  Sample.payment 5 !! "detected_fraud"%string = None /\
  Sample.payment 5 !! "amount"%string = Some (VStr "10.0") /\
  fst (process_transaction_at 1 Sample.store) = Ok 1%positive /\
  (snd (process_transaction_at 1 Sample.store) !! 1%positive
     ≫= fun d => d !! "detected_fraud"%string) = Some (VBool false) /\
  (snd (process_transaction_at 1 Sample.store) !! 1%positive
     ≫= fun d => d !! "amount"%string) = Some (VFloat 10).
Proof. vm_compute. repeat split; reflexivity. Qed.

(** ** The loop of the pull task *)

Section Acknowledge.

Lemma acknowledge_all_snoc (ms : list message) (m : message) (w : world) :
acknowledge_all (ms ++ [m]) w =
  snd (acknowledge (ack_id m) (acknowledge_all ms w)).
Proof. unfold acknowledge_all. now rewrite fold_left_app. Qed.

Lemma acknowledge_all_cons (ms : list message) (m : message) (w : world) :
acknowledge_all (m :: ms) w =
  acknowledge_all ms (snd (acknowledge (ack_id m) w)).
Proof. reflexivity. Qed.

Lemma acknowledge_all_app (ms ms' : list message) (w : world) :
acknowledge_all (ms ++ ms') w = acknowledge_all ms' (acknowledge_all ms w).
Proof. unfold acknowledge_all. apply fold_left_app. Qed.

Lemma acknowledge_all_trace (ms : list message) (w : world) :
trace (acknowledge_all ms w) =
  trace w ++ map (fun m => Acknowledged (ack_id m)) ms.
Proof.
revert w. induction ms as [|m ms IH]; intros w.
- simpl. now rewrite app_nil_r.
- rewrite acknowledge_all_cons, IH. simpl. now rewrite <- app_assoc.
Qed.

Lemma acknowledge_all_subscription (ms : list message) (w : world) :
subscription (acknowledge_all ms w) =
  filter (fun x => ack_id x ∉ map ack_id ms) (subscription w).
Proof.
revert w. induction ms as [|m ms IH]; intros w.
- simpl. induction (subscription w) as [|x q IHq]; [reflexivity|].
  rewrite filter_cons_True by apply not_elem_of_nil. now f_equal.
- rewrite acknowledge_all_cons, IH. simpl.
  rewrite list_filter_filter. apply list_filter_iff.
  intros x. rewrite not_elem_of_cons. tauto.
Qed.

Lemma acknowledge_all_frame (ms : list message) (w : world) :
watermark_table (acknowledge_all ms w) = watermark_table w /\
target_table (acknowledge_all ms w) = target_table w /\
xcom (acknowledge_all ms w) = xcom w /\
now (acknowledge_all ms w) = now w /\
watermark_insert_errors (acknowledge_all ms w) = watermark_insert_errors w /\
rows_insert_errors (acknowledge_all ms w) = rows_insert_errors w.
Proof.
revert w. induction ms as [|m ms IH]; intros w; [tauto|].
rewrite acknowledge_all_cons.
destruct (IH (snd (acknowledge (ack_id m) w))) as (-> & -> & -> & -> & -> & ->).
simpl. tauto.
Qed.

End Acknowledge.

Lemma handle_spec (w0 : Z) (m : message) :
  handle w0 m =
    match step_of m with
    | Raise e => Raise e
    | Ok ts =>
        if ts >? w0
        then match scored m with
             | Ok row => Ok (Some (row, ts))
             | Raise e => Raise e
             end
        else Ok None
    end.
Proof.
  unfold handle, step_of, scored.
  destruct (json_loads (data m)) as [d|e]; simpl; [|reflexivity].
  destruct (timestamp_of _) as [ts|e]; simpl; [|reflexivity].
  destruct (ts >? w0); [|reflexivity].
  destruct (process_transaction d) as [[[]|e] d']; reflexivity.
Qed.

Lemma for_messages_cons (w0 : Z) (m : message) (ms : list message)
    (pd : list dict) (nw : Z) (w : world) :
  for_messages w0 (m :: ms) pd nw w =
    match handle w0 m with
    | Raise e => (Raise e, w)
    | Ok h =>
        for_messages w0 ms
          (fst (accumulate [h] (pd, nw))) (snd (accumulate [h] (pd, nw)))
          (snd (acknowledge (ack_id m) w))
    end.
Proof.
  unfold handle. cbn [for_messages]. unfold bind at 1, lift at 1.
  destruct (json_loads (data m)) as [d|e]; cbn [res_bind]; [|reflexivity].
  unfold bind at 1, lift at 1.
  destruct (timestamp_of _) as [ts|e]; cbn [res_bind]; [|reflexivity].
  unfold bind at 1.
  destruct (ts >? w0).
  - destruct (process_transaction d) as [[[]|e] d']; reflexivity.
  - reflexivity.
Qed.

(** Every message handled: the loop returns the accumulators and has
    acknowledged each message in turn. *)
Lemma for_messages_ok (w0 : Z) (ms : list message)
    (hs : list (option (dict * Z))) (pd : list dict) (nw : Z) (w : world) :
  Forall2 (fun m h => handle w0 m = Ok h) ms hs ->
  for_messages w0 ms pd nw w =
    (Ok (accumulate hs (pd, nw)), acknowledge_all ms w).
Proof.
  intros Hall. revert pd nw w.
  induction Hall as [|m h ms hs Hm _ IH]; intros pd nw w.
  - reflexivity.
  - rewrite for_messages_cons, Hm, IH.
    rewrite acknowledge_all_cons. unfold accumulate. simpl.
    destruct h as [[row ts]|]; reflexivity.
Qed.

(** A message that raises: the loop stops there, with the messages before
    it acknowledged and nothing else done. *)
Lemma for_messages_raise (w0 : Z) (pre post : list message) (m : message)
    (e : error) (hs : list (option (dict * Z))) (pd : list dict) (nw : Z)
    (w : world) :
  Forall2 (fun m h => handle w0 m = Ok h) pre hs ->
  handle w0 m = Raise e ->
  for_messages w0 (pre ++ m :: post) pd nw w = (Raise e, acknowledge_all pre w).
Proof.
  intros Hall Hm. revert pd nw w.
  induction Hall as [|m' h pre hs Hm' _ IH]; intros pd nw w.
  - simpl app. rewrite for_messages_cons, Hm. reflexivity.
  - simpl app. rewrite for_messages_cons, Hm', IH. reflexivity.
Qed.

(** A batch is of one kind or the other. *)
Lemma batch_cases (w0 : Z) (ms : list message) :
  (exists hs, Forall2 (fun m h => handle w0 m = Ok h) ms hs) \/
  (exists pre m post hs e,
     ms = pre ++ m :: post /\
     Forall2 (fun m h => handle w0 m = Ok h) pre hs /\
     handle w0 m = Raise e).
Proof.
  induction ms as [|m ms IH].
  - left. exists []. constructor.
  - destruct (handle w0 m) as [h|e] eqn:Hm.
    + destruct IH as [[hs Hall]|(pre & m' & post & hs & e & -> & Hall & Hm')].
      * left. exists (h :: hs). now constructor.
      * right. exists (m :: pre), m', post, (h :: hs), e.
        repeat split; [now constructor | exact Hm'].
    + right. exists [], m, ms, [], e. repeat split; [constructor | exact Hm].
Qed.

Lemma accumulate_app (hs hs' : list (option (dict * Z))) (acc : list dict * Z) :
  accumulate (hs ++ hs') acc = accumulate hs' (accumulate hs acc).
Proof. unfold accumulate. apply fold_left_app. Qed.


Lemma accumulate_watermark (hs : list (option (dict * Z))) (pd : list dict) (nw : Z) :
  snd (accumulate hs (pd, nw)) = fold_left Z.max (map snd (omap id hs)) nw.
Proof.
  revert pd nw. induction hs as [|[[row ts]|] hs IH]; intros pd nw.
  - reflexivity.
  - change (accumulate (Some (row, ts) :: hs) (pd, nw))
      with (accumulate hs (pd ++ [row], Z.max nw ts)).
    rewrite IH. reflexivity.
  - change (accumulate (None :: hs) (pd, nw)) with (accumulate hs (pd, nw)).
    rewrite IH. reflexivity.
Qed.

(** ** The pull task and the DAG run *)

Lemma pull_and_process_messages_ok (w : world) (hs : list (option (dict * Z))) :
  let w0 := get_last_watermark w in
  let msgs := take 100 (subscription w) in
  let acc := accumulate hs ([], w0) in
  let w1 := acknowledge_all msgs w in
  Forall2 (fun m h => handle w0 m = Ok h) msgs hs ->
  pull_and_process_messages w =
    if snd acc >? w0
    then
      if watermark_insert_errors w
      then (Raise WatermarkInsertError, w1)
      else (Ok (fst acc),
            record (WatermarkInserted (snd acc))
              (set_watermark_table
                 (watermark_table w ++
                    [ {| last_processed_timestamp := snd acc;
                         update_time := now w |} ]) w1))
    else (Ok (fst acc), w1).
Proof.
  intros w0 msgs acc w1 Hall.
  unfold pull_and_process_messages, bind at 1, get.
  unfold bind at 1, pull. fold w0 msgs.
  unfold bind at 1. rewrite (for_messages_ok w0 msgs hs [] w0 w Hall).
  fold acc w1. unfold bind, ret, update_watermark.
  destruct (acknowledge_all_frame msgs w) as (Hwt & _ & _ & Hnow & Herr & _).
  fold w1 in Hwt, Hnow, Herr.
  destruct (snd acc >? w0); [|reflexivity].
  rewrite Herr, Hwt, Hnow.
  destruct (watermark_insert_errors w); reflexivity.
Qed.

Lemma pull_and_process_messages_raise (w : world) (pre post : list message)
    (m : message) (e : error) (hs : list (option (dict * Z))) :
  let w0 := get_last_watermark w in
  take 100 (subscription w) = pre ++ m :: post ->
  Forall2 (fun m h => handle w0 m = Ok h) pre hs ->
  handle w0 m = Raise e ->
  pull_and_process_messages w = (Raise e, acknowledge_all pre w).
Proof.
  intros w0 Hsplit Hall Hm.
  unfold pull_and_process_messages, bind at 1, get.
  unfold bind at 1, pull. fold w0. rewrite Hsplit.
  unfold bind at 1.
  rewrite (for_messages_raise w0 pre post m e hs [] w0 w Hall Hm).
  reflexivity.
Qed.

Lemma dag_run_unfold (w : world) :
  dag_run w =
    match pull_and_process_messages w with
    | (Ok processed_data, w1) =>
        insert_to_bigquery
          (set_xcom (<["pull_and_process_messages" := processed_data]> (xcom w1)) w1)
    | (Raise e, w1) => (Raise e, w1)
    end.
Proof.
  unfold dag_run, bind at 1.
  destruct (pull_and_process_messages w) as [[pd|e] w1]; reflexivity.
Qed.

(** What [insert_to_bigquery] does to a world: nothing, or one insert. *)
Lemma insert_to_bigquery_cases (w : world) :
  insert_to_bigquery w = (Ok tt, w) \/
  insert_to_bigquery w = (Raise RowsInsertError, w) \/
  exists rows,
    rows <> [] /\
    xcom w !! "pull_pubsub_messages"%string = Some rows /\
    insert_to_bigquery w =
      (Ok tt, record (RowsInserted rows)
                (set_target_table (target_table w ++ rows) w)).
Proof.
  unfold insert_to_bigquery, bind, xcom_pull.
  destruct (xcom w !! "pull_pubsub_messages"%string) as [[|row rows]|] eqn:Hx;
    [now left | | now left].
  destruct (rows_insert_errors w); [right; now left|].
  right; right. exists (row :: rows). repeat split. discriminate.
Qed.

(** The insert task reads nothing that the pull task of the same run wrote:
    the key it pulls is not the pull task's id. *)
Lemma insert_to_bigquery_ignores_push (w : world) (pd : list dict) :
  xcom w !! "pull_pubsub_messages"%string = None ->
  insert_to_bigquery
    (set_xcom (<["pull_and_process_messages" := pd]> (xcom w)) w) =
  (Ok tt, set_xcom (<["pull_and_process_messages" := pd]> (xcom w)) w).
Proof.
  intros Hx. unfold insert_to_bigquery, bind, xcom_pull. simpl.
  rewrite lookup_insert_ne by discriminate. now rewrite Hx.
Qed.



Lemma get_last_watermark_ext (w w' : world) :
  watermark_table w' = watermark_table w ->
  get_last_watermark w' = get_last_watermark w.
Proof. intros H. unfold get_last_watermark. now rewrite H. Qed.

Lemma get_last_watermark_after_insert (w w' : world) (r : watermark_row) :
  watermark_table w' = watermark_table w ++ [r] ->
  get_last_watermark w < last_processed_timestamp r ->
  get_last_watermark w' = last_processed_timestamp r.
Proof.
  intros Ht Hgt.
  assert (Hne : watermark_table w' <> []).
  { rewrite Ht. intros H. apply app_eq_nil in H as [_ H]. discriminate. }
  apply get_last_watermark_nonempty in Hne.
  eapply is_max_of_unique; [intros x; reflexivity | exact Hne |].
  rewrite Ht, map_app. simpl. split.
  - apply elem_of_app. right. apply list_elem_of_here.
  - intros x Hx. apply elem_of_app in Hx as [Hx|Hx].
    + assert (Hne' : watermark_table w <> []).
      { intros H. rewrite H in Hx. inversion Hx. }
      apply get_last_watermark_nonempty in Hne' as [_ Hub].
      specialize (Hub x Hx). lia.
    + apply elem_of_cons in Hx as [->|Hx]; [lia | inversion Hx].
Qed.




(** ** Every run of the pull task *)

(** The effects of a run, whatever its outcome: it acknowledges a prefix
    of the pulled messages (all of them when it returns), it inserts at most
    one watermark row (and then returns), and it touches nothing else. *)
Lemma pull_task_effects (w : world) :
  let w0 := get_last_watermark w in
  let msgs := take 100 (subscription w) in
  let r := pull_and_process_messages w in
  exists acked rest marks,
    msgs = acked ++ rest /\
    trace (snd r) =
      trace w ++ map (fun m => Acknowledged (ack_id m)) acked ++
      map WatermarkInserted marks /\
    subscription (snd r) =
      filter (fun x => ack_id x ∉ map ack_id acked) (subscription w) /\
    watermark_table (snd r) = watermark_table w ++ watermark_rows (now w) marks /\
    target_table (snd r) = target_table w /\
    xcom (snd r) = xcom w /\
    rows_insert_errors (snd r) = rows_insert_errors w /\
    (forall pd, fst r = Ok pd -> rest = []) /\
    (marks = [] \/
     exists nw pd, marks = [nw] /\ w0 < nw /\ fst r = Ok pd).
Proof.
  intros w0 msgs r.
  destruct (batch_cases w0 msgs)
    as [[hs Hall]|(pre & m & post & hs & e & Hsplit & Hall & Hm)].
  - pose proof (pull_and_process_messages_ok w hs Hall) as Hrun.
    fold w0 msgs r in Hrun. cbn zeta in Hrun.
    destruct (acknowledge_all_frame msgs w) as (Hwt & Htt & Hx & _ & _ & Hre).
    pose proof (acknowledge_all_trace msgs w) as Htr.
    pose proof (acknowledge_all_subscription msgs w) as Hsub.
    destruct (snd (accumulate hs ([], w0)) >? w0) eqn:Hnw;
      [destruct (watermark_insert_errors w)|].
    + exists msgs, [], []. rewrite Hrun, !app_nil_r. simpl.
      repeat split; intros; try assumption; try reflexivity;
        try discriminate. now left.
    + exists msgs, [], [snd (accumulate hs ([], w0))].
      rewrite Hrun, !app_nil_r. simpl.
      rewrite ?Htr, ?Hsub, ?Htt, ?Hx, ?Hre, ?Hwt, <- ?app_assoc.
      repeat split; intros; try reflexivity.
      right. eexists _, _. repeat split. lia.
    + exists msgs, [], []. rewrite Hrun, !app_nil_r. simpl.
      repeat split; intros; try assumption; try reflexivity;
        try discriminate. now left.
  - pose proof (pull_and_process_messages_raise w pre post m e hs Hsplit Hall Hm)
      as Hrun.
    fold r in Hrun.
    destruct (acknowledge_all_frame pre w) as (Hwt & Htt & Hx & _ & _ & Hre).
    exists pre, (m :: post), []. rewrite Hrun, !app_nil_r. simpl.
    rewrite ?acknowledge_all_trace, ?acknowledge_all_subscription, ?app_nil_r.
    repeat split; intros; try assumption; try reflexivity;
      try discriminate. now left.
Qed.

Lemma all_before_none (early late : event -> bool) (tr : list event) :
  forallb (fun e => negb (early e)) tr = true ->
  all_before early late tr = true.
Proof.
  induction tr as [|e tr IH]; simpl; [reflexivity|].
  intros [_ Htr]%andb_prop. rewrite (IH Htr), Htr.
  destruct (late e); reflexivity.
Qed.

Lemma all_before_app (early late : event -> bool) (tr tr' : list event) :
  forallb (fun e => negb (late e)) tr = true ->
  forallb (fun e => negb (early e)) tr' = true ->
  all_before early late (tr ++ tr') = true.
Proof.
  intros Htr Htr'. induction tr as [|e tr IH]; simpl.
  - now apply all_before_none.
  - simpl in Htr. apply andb_prop in Htr as [He Htr].
    rewrite (IH Htr). destruct (late e); [discriminate | reflexivity].
Qed.

Lemma forallb_acks (p : event -> bool) (ms : list message) :
  (forall id, p (Acknowledged id) = true) ->
  forallb p (map (fun m => Acknowledged (ack_id m)) ms) = true.
Proof. intros Hp. induction ms; simpl; [reflexivity | now rewrite Hp]. Qed.

Lemma forallb_marks (p : event -> bool) (marks : list Z) :
  (forall t, p (WatermarkInserted t) = true) ->
  forallb p (map WatermarkInserted marks) = true.
Proof. intros Hp. induction marks; simpl; [reflexivity | now rewrite Hp]. Qed.

Lemma forallb_commits (p : event -> bool) (commits : list (list dict)) :
  (forall rows, p (RowsInserted rows) = true) ->
  forallb p (map RowsInserted commits) = true.
Proof. intros Hp. induction commits; simpl; [reflexivity | now rewrite Hp]. Qed.

(** What a DAG run adds to a world: the pull task's effects, then at most
    one insert into the target table, which changes neither the
    subscription nor the watermark table. *)
Lemma dag_run_effects (w : world) :
  let r := pull_and_process_messages w in
  exists commits,
    trace (snd (dag_run w)) = trace (snd r) ++ map RowsInserted commits /\
    subscription (snd (dag_run w)) = subscription (snd r) /\
    watermark_table (snd (dag_run w)) = watermark_table (snd r) /\
    target_table (snd (dag_run w)) = target_table (snd r) ++ concat commits.
Proof.
  intros r. rewrite dag_run_unfold. fold r.
  destruct r as [[pd|e] w1]; simpl.
  - set (w2 := set_xcom _ w1).
    destruct (insert_to_bigquery_cases w2) as [H|[H|(rows & _ & _ & H)]];
      rewrite H; simpl.
    + exists []. simpl. now rewrite !app_nil_r.
    + exists []. simpl. now rewrite !app_nil_r.
    + exists [rows]. simpl. now rewrite app_nil_r.
  - exists []. simpl. now rewrite !app_nil_r.
Qed.

Lemma insert_to_bigquery_frame (w : world) :
  List.filter is_ack (trace (snd (insert_to_bigquery w))) =
    List.filter is_ack (trace w) /\
  List.filter is_watermark (trace (snd (insert_to_bigquery w))) =
    List.filter is_watermark (trace w) /\
  subscription (snd (insert_to_bigquery w)) = subscription w /\
  watermark_table (snd (insert_to_bigquery w)) = watermark_table w.
Proof.
  destruct (insert_to_bigquery_cases w) as [H|[H|(rows & _ & _ & H)]];
    rewrite H; simpl; repeat split; try reflexivity;
    rewrite List.filter_app; simpl; now rewrite app_nil_r.
Qed.

(** The events a DAG run adds: acknowledgements, then watermark inserts,
    then inserts into the target table. *)
Lemma dag_run_trace (w : world) :
  exists acked marks commits,
    trace (snd (dag_run w)) =
      trace w ++
      (map (fun m => Acknowledged (ack_id m)) acked ++
       map WatermarkInserted marks) ++
      map RowsInserted commits.
Proof.
  destruct (pull_task_effects w)
    as (acked & rest & marks & _ & Htr & _).
  destruct (dag_run_effects w) as (commits & Htr' & _).
  exists acked, marks, commits. rewrite Htr', Htr.
  now rewrite <- !app_assoc.
Qed.

(** C1 (as the code has it): the acknowledgements of a cycle are issued by
    the pull task, one per message inside its loop and for every pulled
    message when the task returns; [insert_to_bigquery] acknowledges
    nothing and leaves the subscription alone; so in the events of a DAG
    run every acknowledgement comes before any insert into the target
    table, and none waits for it. *)
Theorem acknowledgements_issued_by_pull_task (w : world) :
  let msgs := take 100 (subscription w) in
  let r := pull_and_process_messages w in
  (exists acked rest marks,
     msgs = acked ++ rest /\
     trace (snd r) =
       trace w ++ map (fun m => Acknowledged (ack_id m)) acked ++
       map WatermarkInserted marks /\
     subscription (snd r) =
       filter (fun x => ack_id x ∉ map ack_id acked) (subscription w) /\
     (forall pd, fst r = Ok pd -> rest = [])) /\
  (forall w2,
     List.filter is_ack (trace (snd (insert_to_bigquery w2))) =
       List.filter is_ack (trace w2) /\
     subscription (snd (insert_to_bigquery w2)) = subscription w2) /\
  (exists evs,
     trace (snd (dag_run w)) = trace w ++ evs /\
     all_before is_ack is_commit evs = true).
Proof.
  intros msgs r. split; [|split].
  - destruct (pull_task_effects w)
      as (acked & rest & marks & Hsplit & Htr & Hsub & _ & _ & _ & _ & Hok & _).
    exists acked, rest, marks. repeat split; assumption.
  - intros w2. destruct (insert_to_bigquery_frame w2) as (Ha & _ & Hs & _).
    split; assumption.
  - destruct (dag_run_trace w) as (acked & marks & commits & Htr).
    eexists. split; [exact Htr|].
    apply all_before_app.
    + rewrite forallb_app, forallb_acks, forallb_marks; reflexivity.
    + now apply forallb_commits.
Qed.

(** C1 (as stated) fails: on a first run with one valid message the
    message is acknowledged although no insert into the target table has
    taken place, before or after. *)
Lemma acknowledged_without_commit :
  trace (snd (pull_and_process_messages Sample.first_run)) =
    [Acknowledged "a5"; WatermarkInserted 5] /\
  trace (snd (dag_run Sample.first_run)) =
    [Acknowledged "a5"; WatermarkInserted 5] /\
  subscription (snd (dag_run Sample.first_run)) = [] /\
  target_table (snd (dag_run Sample.first_run)) = [] /\
  only_after is_commit is_ack false (trace (snd (dag_run Sample.first_run))) = false.
Proof. vm_compute. repeat split; reflexivity. Qed.



(** ** Messages that raise *)

Lemma handle_undecodable (w0 : Z) (m : message) :
  data m = Undecodable -> handle w0 m = Raise JSONDecodeError.
Proof. intros H. unfold handle. now rewrite H. Qed.

(** A newer message whose amount [float] refuses, or which has none. *)
Lemma handle_bad_amount (w0 : Z) (m : message) (d : dict) (ts : Z) (e : error) :
  data m = JsonObject d ->
  timestamp_of (dict_get d "step" (VInt 0)) = Ok ts ->
  w0 < ts ->
  float_field d "amount" = Raise e ->
  handle w0 m = Raise e.
Proof.
  intros Hd Hts Hgt Ha. unfold handle. rewrite Hd. simpl. rewrite Hts. simpl.
  replace (ts >? w0) with true by (symmetry; apply Z.gtb_lt; lia).
  rewrite process_transaction_run, Ha. reflexivity.
Qed.

(** A message that is not newer than the watermark is not looked into:
    whatever its fields, it is skipped and will be acknowledged. *)
Lemma handle_not_newer (w0 : Z) (m : message) (d : dict) (ts : Z) :
  data m = JsonObject d ->
  timestamp_of (dict_get d "step" (VInt 0)) = Ok ts ->
  ts <= w0 ->
  handle w0 m = Ok None.
Proof.
  intros Hd Hts Hle. unfold handle. rewrite Hd. simpl. rewrite Hts. simpl.
  replace (ts >? w0) with false; [reflexivity|].
  symmetry. rewrite Z.gtb_ltb. apply Z.ltb_ge. exact Hle.
Qed.

(** C4 (as the code has it): no exception is caught.  When the loop meets a
    message on which line 99, 102 or 103 raises (a payload that does not
    decode, a newer message with a missing or non-numeric field), the pull
    task raises that exception and the DAG run with it: the messages
    before it are acknowledged, that message and those after it stay on the
    subscription unacknowledged, no watermark row is written, nothing is
    handed to the insert task and nothing is inserted. *)
Theorem per_message_failure_aborts_cycle (w : world) (pre post : list message)
    (m : message) (e : error) (hs : list (option (dict * Z))) :
  let w0 := get_last_watermark w in
  take 100 (subscription w) = pre ++ m :: post ->
  Forall2 (fun m h => handle w0 m = Ok h) pre hs ->
  handle w0 m = Raise e ->
  e <> NotModelled ->
  let w' := snd (dag_run w) in
  pull_and_process_messages w = (Raise e, w') /\
  dag_run w = (Raise e, w') /\
  trace w' = trace w ++ map (fun m => Acknowledged (ack_id m)) pre /\
  subscription w' =
    filter (fun x => ack_id x ∉ map ack_id pre) (subscription w) /\
  (forall x, x ∈ m :: post -> ack_id x ∉ map ack_id pre ->
     x ∈ subscription w') /\
  watermark_table w' = watermark_table w /\
  target_table w' = target_table w /\
  xcom w' = xcom w.
Proof.
  intros w0 Hsplit Hall Hm _ w'.
  pose proof (pull_and_process_messages_raise w pre post m e hs Hsplit Hall Hm)
    as Hrun.
  assert (Hdag : dag_run w = (Raise e, acknowledge_all pre w)).
  { rewrite dag_run_unfold, Hrun. reflexivity. }
  assert (Hw' : w' = acknowledge_all pre w) by (unfold w'; now rewrite Hdag).
  rewrite Hw'.
  destruct (acknowledge_all_frame pre w) as (Hwt & Htt & Hx & _).
  repeat split; try assumption.
  - apply acknowledge_all_trace.
  - apply acknowledge_all_subscription.
  - intros x Hx' Hid. rewrite acknowledge_all_subscription.
    apply list_elem_of_filter. split; [exact Hid|].
    assert (Hin : x ∈ take 100 (subscription w)).
    { rewrite Hsplit. apply elem_of_app. now right. }
    apply elem_of_take in Hin as (i & Hi & _).
    now apply list_elem_of_lookup_2 in Hi.
Qed.

Lemma per_message_failure_aborts_cycle_witness :
  dag_run Sample.poisoned =
    (Raise ValueError,
     acknowledge_all [Sample.msg "a1" (Sample.payment 1)] Sample.poisoned) /\
  trace (snd (dag_run Sample.poisoned)) = [Acknowledged "a1"] /\
  watermark_table (snd (dag_run Sample.poisoned)) = [].
Proof.
  destruct (per_message_failure_aborts_cycle Sample.poisoned
              [Sample.msg "a1" (Sample.payment 1)]
              [Sample.msg "a3" (Sample.payment 3)]
              (Sample.msg "a2"
                 (Sample.tx 2 "PAYMENT" (VStr "not_a_number") (VInt 50) (VFloat 40)))
              ValueError
              [Some (snd (process_transaction (Sample.payment 1)), 1)])
    as (_ & Hdag & Htr & _ & _ & Hwt & _).
  - reflexivity.
  - constructor; [|constructor]. vm_compute. reflexivity.
  - vm_compute. reflexivity.
  - discriminate.
  - split; [|split].
    + vm_compute. reflexivity.
    + exact Htr.
    + exact Hwt.
Defined.

(** C4 (as stated) fails: with a valid message, one whose amount is
    ["not_a_number"] and another valid one, the run raises [ValueError];
    the second message is not acknowledged, the third is neither scored nor
    acknowledged, and neither a watermark nor a row is written. *)
Lemma poisoned_batch_aborts :
  fst (pull_and_process_messages Sample.poisoned) = Raise ValueError /\
  fst (dag_run Sample.poisoned) = Raise ValueError /\
  trace (snd (dag_run Sample.poisoned)) = [Acknowledged "a1"] /\
  map ack_id (subscription (snd (dag_run Sample.poisoned))) = ["a2"; "a3"]%string /\
  watermark_table (snd (dag_run Sample.poisoned)) = [] /\
  target_table (snd (dag_run Sample.poisoned)) = [] /\
  get_last_watermark (snd (dag_run Sample.poisoned)) = 0.
Proof. vm_compute. repeat split; reflexivity. Qed.

(** ** Messages at step 0 *)





(** * Further properties of the tasks *)

(** ** The watermark over a run *)

Lemma is_max_of_snoc (m t : Z) (l : list Z) :
  is_max_of m l -> is_max_of (Z.max m t) (l ++ [t]).
Proof.
  intros [Hin Hub]. split.
  - apply elem_of_app.
    destruct (Z.max_spec m t) as [[_ ->]|[_ ->]];
      [right; apply list_elem_of_here | now left].
  - intros x [Hx|Hx]%elem_of_app.
    + specialize (Hub x Hx). lia.
    + apply elem_of_cons in Hx as [->|Hx]; [lia | inversion Hx].
Qed.

(** An accepted [update_watermark t] on a table with rows makes the table
    read the larger of the old reading and [t]; on an empty table it makes
    it read [t], which falls below the epoch when [t] is negative. *)
Theorem update_watermark_read_back (w : world) (t : Z) :
  watermark_insert_errors w = false ->
  (watermark_table w <> [] ->
   get_last_watermark (snd (update_watermark t w)) =
     Z.max (get_last_watermark w) t) /\
  (watermark_table w = [] ->
   get_last_watermark (snd (update_watermark t w)) = t).
Proof.
  intros Herr. rewrite (update_watermark_ok t w Herr). simpl snd.
  set (w' := record _ _).
  assert (Ht : watermark_table w' =
               watermark_table w ++
               [ {| last_processed_timestamp := t; update_time := now w |} ])
    by reflexivity.
  assert (Hne : watermark_table w' <> []).
  { rewrite Ht. intros H. apply app_eq_nil in H as [_ H]. discriminate. }
  pose proof (get_last_watermark_nonempty w' Hne) as Hmax.
  rewrite Ht, map_app in Hmax. simpl in Hmax.
  split.
  - intros Hw. apply get_last_watermark_nonempty in Hw.
    eapply is_max_of_unique; [intros x; reflexivity | exact Hmax |].
    now apply is_max_of_snoc.
  - intros Hw. rewrite Hw in Hmax. simpl in Hmax.
    destruct Hmax as [Hin _].
    apply elem_of_cons in Hin as [Hin|Hin]; [exact Hin | inversion Hin].
Qed.

Lemma update_watermark_read_back_witness :
  get_last_watermark (snd (update_watermark 7 (Sample.fresh [] [3; 9]))) = 9 /\
  get_last_watermark (snd (update_watermark (-4) (Sample.fresh [] []))) = -4.
Proof.
  split.
  - rewrite (proj1 (update_watermark_read_back (Sample.fresh [] [3; 9]) 7 eq_refl))
      by discriminate.
    reflexivity.
  - apply (update_watermark_read_back (Sample.fresh [] []) (-4) eq_refl).
    reflexivity.
Defined.

(** Whatever a DAG run pulls and whatever its outcome, the watermark the
    table reads after the run is not below the one it read before. *)
Theorem watermark_never_decreases (w : world) :
  get_last_watermark w <= get_last_watermark (snd (pull_and_process_messages w)) /\
  get_last_watermark w <= get_last_watermark (snd (dag_run w)).
Proof.
  destruct (pull_task_effects w)
    as (acked & rest & marks & _ & _ & _ & Hwt & _ & _ & _ & _ & Hmarks).
  destruct (dag_run_effects w) as (commits & _ & _ & Hwt' & _).
  rewrite (get_last_watermark_ext _ _ Hwt').
  assert (H : get_last_watermark w <=
              get_last_watermark (snd (pull_and_process_messages w))).
  { destruct Hmarks as [->|(nw & pd & -> & Hgt & _)].
    - simpl in Hwt. rewrite app_nil_r in Hwt.
      rewrite (get_last_watermark_ext _ _ Hwt). lia.
    - rewrite (get_last_watermark_after_insert w _
                 {| last_processed_timestamp := nw; update_time := now w |}
                 Hwt Hgt).
      simpl. lia. }
  split; exact H.
Qed.

(** ** The hand-over between the two tasks *)

Lemma filter_commit_acks (ms : list message) :
  List.filter is_commit (map (fun m => Acknowledged (ack_id m)) ms) = [].
Proof. induction ms; simpl; [reflexivity | assumption]. Qed.

Lemma filter_commit_marks (marks : list Z) :
  List.filter is_commit (map WatermarkInserted marks) = [].
Proof. induction marks; simpl; [reflexivity | assumption]. Qed.

(** In a run that starts without an XCom value under
    ['pull_pubsub_messages'], [insert_to_bigquery] inserts nothing: the
    pull task's batch is stored under the task id
    ['pull_and_process_messages'], the insert task pulls the other key,
    finds [None] and returns.  The target table is left as it was however
    many rows the pull task returned. *)
Theorem fresh_run_inserts_nothing (w : world) :
  xcom w !! "pull_pubsub_messages"%string = None ->
  target_table (snd (dag_run w)) = target_table w /\
  List.filter is_commit (trace (snd (dag_run w))) =
    List.filter is_commit (trace w) /\
  (forall pd, fst (pull_and_process_messages w) = Ok pd ->
     fst (dag_run w) = Ok tt /\
     xcom (snd (dag_run w)) !! "pull_and_process_messages"%string = Some pd /\
     xcom (snd (dag_run w)) !! "pull_pubsub_messages"%string = None).
Proof.
  intros Hx.
  destruct (pull_task_effects w)
    as (acked & rest & marks & _ & Htr & _ & _ & Htt & Hxc & _ & _ & _).
  rewrite dag_run_unfold.
  destruct (pull_and_process_messages w) as [[pd|e] w1]; simpl in *.
  - rewrite insert_to_bigquery_ignores_push by (now rewrite Hxc). simpl.
    split; [exact Htt|]. split.
    + rewrite Htr, !List.filter_app, filter_commit_acks, filter_commit_marks.
      now rewrite !app_nil_r.
    + intros pd' [= <-]. split; [reflexivity|]. split.
      * apply lookup_insert_eq.
      * rewrite lookup_insert_ne by discriminate. now rewrite Hxc.
  - split; [exact Htt|]. split; [|discriminate].
    rewrite Htr, !List.filter_app, filter_commit_acks, filter_commit_marks.
    now rewrite !app_nil_r.
Qed.

Lemma fresh_run_inserts_nothing_witness :
  length (match fst (pull_and_process_messages Sample.three_steps) with
          | Ok pd => pd
          | Raise _ => []
          end) = 2%nat /\
  fst (dag_run Sample.three_steps) = Ok tt /\
  target_table (snd (dag_run Sample.three_steps)) = [].
Proof.
  destruct (fresh_run_inserts_nothing Sample.three_steps eq_refl)
    as (Htt & _ & Hok).
  split; [vm_compute; reflexivity|]. split.
  - destruct (pull_and_process_messages Sample.three_steps) as [[pd|e] w1] eqn:Hrun.
    + apply (Hok pd eq_refl).
    + vm_compute in Hrun. discriminate.
  - exact Htt.
Defined.

(** ** Edges of the pull task *)

(** Nothing on the subscription: the pull task returns the empty batch and
    leaves the world as it found it: no acknowledgement, no watermark
    row. *)
Theorem empty_subscription_is_noop (w : world) :
  subscription w = [] ->
  pull_and_process_messages w = (Ok [], w).
Proof.
  intros Hsub.
  pose proof (pull_and_process_messages_ok w []) as Hrun.
  cbn zeta in Hrun. rewrite Hsub in Hrun. simpl in Hrun.
  rewrite Hrun by constructor.
  now rewrite Z.gtb_ltb, Z.ltb_irrefl.
Qed.

Lemma empty_subscription_is_noop_witness :
  pull_and_process_messages (Sample.fresh [] [100]) = (Ok [], Sample.fresh [] [100]).
Proof. apply (empty_subscription_is_noop (Sample.fresh [] [100])). reflexivity. Defined.

Lemma filter_ack_acks (ms : list message) :
  List.filter is_ack (map (fun m => Acknowledged (ack_id m)) ms) =
    map (fun m => Acknowledged (ack_id m)) ms.
Proof. induction ms; simpl; [reflexivity | now f_equal]. Qed.

Lemma filter_ack_marks (marks : list Z) :
  List.filter is_ack (map WatermarkInserted marks) = [].
Proof. induction marks; simpl; [reflexivity | assumption]. Qed.

(** One run acknowledges at most 100 messages, and a message beyond the
    first 100 of the subscription (whose id is not among theirs) is still
    on the subscription after the run. *)
Theorem pull_task_takes_at_most_100 (w : world) :
  let w1 := snd (pull_and_process_messages w) in
  (length (List.filter is_ack (trace w1)) <=
     length (List.filter is_ack (trace w)) + 100)%nat /\
  (forall x, x ∈ drop 100 (subscription w) ->
     ack_id x ∉ map ack_id (take 100 (subscription w)) ->
     x ∈ subscription w1).
Proof.
  intros w1.
  destruct (pull_task_effects w)
    as (acked & rest & marks & Hsplit & Htr & Hsub & _).
  fold w1 in Htr, Hsub.
  assert (Hlen : (length acked <= 100)%nat).
  { pose proof (length_take (subscription w) 100) as Hle.
    rewrite Hsplit, length_app in Hle. lia. }
  split.
  - rewrite Htr, !List.filter_app, filter_ack_acks, filter_ack_marks.
    rewrite !length_app, length_map. simpl. lia.
  - intros x Hx Hid. rewrite Hsub. apply list_elem_of_filter. split.
    + intros Hin. apply Hid. rewrite Hsplit, map_app.
      apply elem_of_app. now left.
    + rewrite <- (take_drop 100 (subscription w)).
      apply elem_of_app. now right.
Qed.

Lemma pull_task_takes_at_most_100_witness :
  length (subscription Sample.crowd) = 150%nat /\
  length (List.filter is_ack
            (trace (snd (pull_and_process_messages Sample.crowd)))) = 100%nat /\
  length (subscription (snd (pull_and_process_messages Sample.crowd))) = 50%nat.
Proof.
  pose proof (pull_task_takes_at_most_100 Sample.crowd) as [Hle _].
  split; [reflexivity|]. split; [|vm_compute; reflexivity].
  cbn zeta in Hle. simpl (length (List.filter is_ack (trace Sample.crowd))) in Hle.
  assert (Hge : (100 <= length (List.filter is_ack
                   (trace (snd (pull_and_process_messages Sample.crowd)))))%nat).
  { vm_compute. repeat constructor. }
  lia.
Defined.

Lemma accumulate_watermark_ge (hs : list (option (dict * Z))) (w0 : Z)
    (row : dict) (ts : Z) :
  Some (row, ts) ∈ hs -> ts <= snd (accumulate hs ([], w0)).
Proof.
  intros Hin. rewrite accumulate_watermark. apply fold_max_ge_elem.
  apply (list_elem_of_fmap_2' snd _ (row, ts)); [|reflexivity].
  apply list_elem_of_omap. exists (Some (row, ts)). split; [exact Hin | reflexivity].
Qed.

(** The batch can be lost on a watermark failure.  When every pulled
    message was handled, one of them is newer than the watermark and the
    watermark insert reports errors, the pull task raises after it has
    acknowledged all the pulled messages: the run stops with the
    subscription emptied of them, the watermark unchanged, nothing handed
    to the insert task and no row inserted. *)
Theorem watermark_failure_after_acknowledgement (w : world)
    (hs : list (option (dict * Z))) (m : message) :
  let w0 := get_last_watermark w in
  let msgs := take 100 (subscription w) in
  Forall2 (fun m h => handle w0 m = Ok h) msgs hs ->
  m ∈ msgs ->
  newer w0 m = true ->
  watermark_insert_errors w = true ->
  pull_and_process_messages w =
    (Raise WatermarkInsertError, acknowledge_all msgs w) /\
  dag_run w = (Raise WatermarkInsertError, acknowledge_all msgs w) /\
  trace (snd (dag_run w)) =
    trace w ++ map (fun m => Acknowledged (ack_id m)) msgs /\
  watermark_table (snd (dag_run w)) = watermark_table w /\
  target_table (snd (dag_run w)) = target_table w /\
  xcom (snd (dag_run w)) = xcom w.
Proof.
  intros w0 msgs Hall Hin Hnew Herr.
  assert (Hgt : (snd (accumulate hs ([], w0)) >? w0) = true).
  { apply list_elem_of_lookup_1 in Hin as [i Hi].
    destruct (Forall2_lookup_l _ _ _ _ _ Hall Hi) as (h & Hh & Hm).
    rewrite handle_spec in Hm. unfold newer in Hnew.
    destruct (step_of m) as [ts|]; [|discriminate].
    rewrite Hnew in Hm.
    destruct (scored m) as [row|]; [|discriminate].
    injection Hm as <-.
    apply list_elem_of_lookup_2 in Hh.
    pose proof (accumulate_watermark_ge hs w0 row ts Hh).
    apply Z.gtb_lt in Hnew. apply Z.gtb_lt. lia. }
  pose proof (pull_and_process_messages_ok w hs Hall) as Hrun.
  fold w0 msgs in Hrun. cbn zeta in Hrun. rewrite Hgt, Herr in Hrun.
  assert (Hdag : dag_run w = (Raise WatermarkInsertError, acknowledge_all msgs w)).
  { rewrite dag_run_unfold, Hrun. reflexivity. }
  destruct (acknowledge_all_frame msgs w) as (Hwt & Htt & Hx & _).
  rewrite Hdag. simpl.
  repeat split; try assumption. apply acknowledge_all_trace.
Qed.

Lemma watermark_failure_after_acknowledgement_witness :
  dag_run Sample.failing_watermark =
    (Raise WatermarkInsertError,
     acknowledge_all [Sample.msg "a5" (Sample.payment 5)] Sample.failing_watermark) /\
  subscription (snd (dag_run Sample.failing_watermark)) = [] /\
  get_last_watermark (snd (dag_run Sample.failing_watermark)) = 0.
Proof.
  destruct (watermark_failure_after_acknowledgement Sample.failing_watermark
              [Some (snd (process_transaction (Sample.payment 5)), 5)]
              (Sample.msg "a5" (Sample.payment 5)))
    as (_ & Hdag & _).
  - constructor; [vm_compute; reflexivity | constructor].
  - apply list_elem_of_here.
  - reflexivity.
  - reflexivity.
  - split; [exact Hdag|]. rewrite Hdag. split; reflexivity.
Defined.

(** Redelivered messages are not read.  When every pulled message decodes
    to an object whose integer step is at most the watermark, the pull task
    returns the empty batch and acknowledges them all, whatever their other
    fields hold, and writes no watermark row. *)
Theorem stale_batch_acknowledged_unread (w : world) :
  let w0 := get_last_watermark w in
  let msgs := take 100 (subscription w) in
  (forall m, m ∈ msgs ->
     exists d ts, data m = JsonObject d /\
       timestamp_of (dict_get d "step" (VInt 0)) = Ok ts /\ ts <= w0) ->
  pull_and_process_messages w = (Ok [], acknowledge_all msgs w).
Proof.
  intros w0 msgs Hstale.
  assert (Hall : Forall2 (fun m h => handle w0 m = Ok h) msgs
                   (map (fun _ => None) msgs)).
  { induction msgs as [|m ms IH]; simpl; constructor.
    - destruct (Hstale m (list_elem_of_here _ _)) as (d & ts & Hd & Hts & Hle).
      exact (handle_not_newer w0 m d ts Hd Hts Hle).
    - apply IH. intros x Hx. apply Hstale. now apply list_elem_of_further. }
  pose proof (pull_and_process_messages_ok w _ Hall) as Hrun.
  fold w0 msgs in Hrun. cbn zeta in Hrun.
  assert (Hacc : accumulate (map (fun _ : message => None) msgs) ([], w0) = ([], w0)).
  { clear. induction msgs as [|m ms IH]; [reflexivity | exact IH]. }
  rewrite Hacc in Hrun. simpl in Hrun.
  now rewrite Z.gtb_ltb, Z.ltb_irrefl in Hrun.
Qed.

Lemma stale_batch_acknowledged_unread_witness :
  fst (pull_and_process_messages Sample.stale) = Ok [] /\
  trace (snd (pull_and_process_messages Sample.stale)) =
    [Acknowledged "s90"; Acknowledged "s100"] /\
  subscription (snd (pull_and_process_messages Sample.stale)) = [].
Proof.
  rewrite (stale_batch_acknowledged_unread Sample.stale).
  - repeat split; reflexivity.
  - intros m Hm. simpl in Hm.
    rewrite !elem_of_cons, elem_of_nil in Hm.
    destruct Hm as [-> | [-> | []]].
    + exists (Sample.payment 90), 90. repeat split. vm_compute. discriminate.
    + eexists _, 100. repeat split. vm_compute. discriminate.
Defined.

(** ** Edges of the rules *)

Lemma detect_fraud_agree (t t' : dict) :
  t !! "type"%string = t' !! "type"%string ->
  t !! "amount"%string = t' !! "amount"%string ->
  t !! "oldbalanceOrg"%string = t' !! "oldbalanceOrg"%string ->
  t !! "newbalanceOrig"%string = t' !! "newbalanceOrig"%string ->
  detect_fraud t = detect_fraud t'.
Proof.
  intros Hty Ha Ho Hn. unfold detect_fraud, getitem.
  now rewrite Hty, Ha, Ho, Hn.
Qed.

(** [detect_fraud] reads four fields and nothing else: two transactions
    that agree on [type], [amount], [oldbalanceOrg] and [newbalanceOrig]
    get the same verdict, or the same exception, whatever their destination
    balances, their step or any other key. *)
Theorem detect_fraud_reads_four_fields (t t' : dict) :
  (forall k, k ∈ ["type"; "amount"; "oldbalanceOrg"; "newbalanceOrig"]%string ->
     t !! k = t' !! k) ->
  detect_fraud t = detect_fraud t'.
Proof.
  intros H. apply detect_fraud_agree; apply H;
    rewrite !elem_of_cons; tauto.
Qed.

Lemma detect_fraud_reads_four_fields_witness :
  detect_fraud
    (<["newbalanceDest" := VStr "unknown"]> (delete "step"%string Sample.transfer)) =
  detect_fraud Sample.transfer.
Proof.
  apply detect_fraud_reads_four_fields.
  intros k Hk. rewrite !elem_of_cons, elem_of_nil in Hk.
  destruct Hk as [-> | [-> | [-> | [-> | []]]]]; reflexivity.
Defined.

Lemma float_ltb_nan_r (x : float) : (x <? nan)%float = false.
Proof.
  rewrite ltb_spec. unfold SFltb.
  replace (Prim2SF nan) with S754_nan by reflexivity.
  destruct (Prim2SF x); reflexivity.
Qed.

Lemma float_abs_sub_nan (x : float) : Prim2SF (abs (x - nan)) = S754_nan.
Proof.
  rewrite abs_spec, sub_spec.
  replace (Prim2SF nan) with S754_nan by reflexivity.
  unfold SF64sub. destruct (Prim2SF x); reflexivity.
Qed.

(** A NaN amount (JSON [NaN], or the string ["nan"]) passes every rule
    that looks at the amount: the transaction is flagged only when the
    account-drained rule fires, even a TRANSFER whose balances do not add
    up. *)
Theorem nan_amount_escapes_amount_rules
    (t : dict) (ty : value) (oldbalanceOrg newbalanceOrig : float) :
  t !! "type"%string = Some ty ->
  t !! "amount"%string = Some (VFloat nan) ->
  t !! "oldbalanceOrg"%string = Some (VFloat oldbalanceOrg) ->
  t !! "newbalanceOrig"%string = Some (VFloat newbalanceOrig) ->
  detect_fraud t = Ok (account_drained oldbalanceOrg newbalanceOrig).
Proof.
  intros Hty Ha Ho Hn.
  rewrite (detect_fraud_verdict t ty nan oldbalanceOrg newbalanceOrig Hty Ha Ho Hn).
  unfold verdict, high_value_transfer, rapid_micro_transfer, no_recent_history,
    balance_mismatch, mismatch.
  rewrite float_ltb_nan_r, !andb_false_r. simpl.
  rewrite !orb_false_r.
  rewrite ltb_spec, float_abs_sub_nan. unfold SFltb.
  destruct (Prim2SF 0.01); simpl; now rewrite orb_false_r.
Qed.

Lemma nan_amount_escapes_amount_rules_witness :
  py_float (VStr "nan") = Ok nan /\
  detect_fraud Sample.nan_transfer = Ok false.
Proof.
  split; [reflexivity|].
  rewrite (nan_amount_escapes_amount_rules Sample.nan_transfer (VStr "TRANSFER")
             100 50 eq_refl eq_refl eq_refl eq_refl).
  reflexivity.
Defined.

(** ** Edges of [process_transaction] *)

Lemma float_field_float (d : dict) (k : string) (f : float) :
  d !! k = Some (VFloat f) -> float_field d k = Ok f.
Proof. intros H. unfold float_field, getitem. now rewrite H. Qed.

(** Scoring a scored row changes nothing: a second call on the dict a
    first call returned succeeds and leaves the dict as it is, with the same
    verdict. *)
Theorem process_transaction_idempotent (d d' : dict) :
  process_transaction d = (Ok tt, d') ->
  process_transaction d' = (Ok tt, d').
Proof.
  intros Hrun.
  destruct (process_transaction_ok_inv d d' Hrun)
    as (a & ob & nb & od & nd & fraud & _ & _ & _ & _ & _ & Hf & Hd').
  assert (Ha : d' !! "amount"%string = Some (VFloat a)).
  { rewrite Hd'. unfold coerced.
    now rewrite !lookup_insert_ne, lookup_insert_eq by discriminate. }
  assert (Hob : d' !! "oldbalanceOrg"%string = Some (VFloat ob)).
  { rewrite Hd'. unfold coerced.
    now rewrite !lookup_insert_ne, lookup_insert_eq by discriminate. }
  assert (Hnb : d' !! "newbalanceOrig"%string = Some (VFloat nb)).
  { rewrite Hd'. unfold coerced.
    now rewrite !lookup_insert_ne, lookup_insert_eq by discriminate. }
  assert (Hod : d' !! "oldbalanceDest"%string = Some (VFloat od)).
  { rewrite Hd'. unfold coerced.
    now rewrite !lookup_insert_ne, lookup_insert_eq by discriminate. }
  assert (Hnd : d' !! "newbalanceDest"%string = Some (VFloat nd)).
  { rewrite Hd'. unfold coerced.
    now rewrite !lookup_insert_ne, lookup_insert_eq by discriminate. }
  assert (Hdf : d' !! "detected_fraud"%string = Some (VBool fraud)).
  { rewrite Hd'. apply lookup_insert_eq. }
  assert (Hsame : coerced d' a ob nb od nd = d').
  { unfold coerced.
    rewrite (insert_id d' "amount") by exact Ha.
    rewrite (insert_id d' "oldbalanceOrg") by exact Hob.
    rewrite (insert_id d' "newbalanceOrig") by exact Hnb.
    rewrite (insert_id d' "oldbalanceDest") by exact Hod.
    now rewrite (insert_id d' "newbalanceDest") by exact Hnd. }
  assert (Hf' : detect_fraud d' = Ok fraud).
  { rewrite <- Hf. rewrite Hd'.
    apply detect_fraud_agree; now rewrite lookup_insert_ne by discriminate. }
  rewrite process_transaction_run.
  rewrite (float_field_float _ _ _ Ha), (float_field_float _ _ _ Hob),
    (float_field_float _ _ _ Hnb), (float_field_float _ _ _ Hod),
    (float_field_float _ _ _ Hnd).
  cbn zeta. rewrite Hsame, Hf'.
  now rewrite (insert_id d' "detected_fraud") by exact Hdf.
Qed.

Lemma process_transaction_idempotent_witness :
  fst (process_transaction (Sample.payment 5)) = Ok tt /\
  process_transaction (snd (process_transaction (Sample.payment 5))) =
    (Ok tt, snd (process_transaction (Sample.payment 5))).
Proof.
  split; [vm_compute; reflexivity|].
  apply (process_transaction_idempotent (Sample.payment 5)).
  destruct (process_transaction (Sample.payment 5)) as [[[]|e] d'] eqn:Hrun.
  - reflexivity.
  - vm_compute in Hrun. discriminate.
Defined.

(** A transaction without a [type] is found out late: the five numeric
    fields are coerced and stored first, and only then does the call raise
    [KeyError('type')], leaving the caller's dict with the floats and
    without a verdict. *)
Theorem missing_type_raises_after_coercion (d : dict) (a ob nb od nd : float) :
  d !! "type"%string = None ->
  float_field d "amount" = Ok a ->
  float_field d "oldbalanceOrg" = Ok ob ->
  float_field d "newbalanceOrig" = Ok nb ->
  float_field d "oldbalanceDest" = Ok od ->
  float_field d "newbalanceDest" = Ok nd ->
  process_transaction d = (Raise (KeyError "type"), coerced d a ob nb od nd) /\
  coerced d a ob nb od nd !! "detected_fraud"%string = d !! "detected_fraud"%string /\
  coerced d a ob nb od nd !! "amount"%string = Some (VFloat a).
Proof.
  intros Hty Ha Hob Hnb Hod Hnd.
  rewrite process_transaction_run, Ha, Hob, Hnb, Hod, Hnd. cbn zeta.
  assert (Hty' : coerced d a ob nb od nd !! "type"%string = None).
  { unfold coerced. now rewrite !lookup_insert_ne by discriminate. }
  unfold detect_fraud, getitem. rewrite Hty'. simpl.
  split; [reflexivity|]. split.
  - unfold coerced. now rewrite !lookup_insert_ne by discriminate.
  - unfold coerced. now rewrite !lookup_insert_ne, lookup_insert_eq by discriminate.
Qed.

Lemma missing_type_raises_after_coercion_witness :
  Sample.untyped !! "amount"%string = Some (VStr "10.0") /\
  fst (process_transaction Sample.untyped) = Raise (KeyError "type") /\
  snd (process_transaction Sample.untyped) !! "amount"%string = Some (VFloat 10).
Proof.
  destruct (missing_type_raises_after_coercion Sample.untyped 10 50 40 0 0
              eq_refl eq_refl eq_refl eq_refl eq_refl eq_refl)
    as (Hrun & _ & Ha).
  rewrite Hrun. split; [reflexivity|]. split; [reflexivity | exact Ha].
Defined.

(** ** Runs that fail, and the target table *)

(** A message that raises at the head of the subscription blocks it: the
    run raises before any acknowledgement and leaves the world exactly as
    it was, so the next run pulls the same message and fails the same
    way. *)
Theorem poison_head_blocks_every_run (w : world) (m : message)
    (post : list message) (e : error) :
  take 100 (subscription w) = m :: post ->
  handle (get_last_watermark w) m = Raise e ->
  e <> NotModelled ->
  dag_run w = (Raise e, w) /\
  dag_run (snd (dag_run w)) = (Raise e, w).
Proof.
  intros Hsplit Hm _.
  assert (Hrun : pull_and_process_messages w = (Raise e, w)).
  { apply (pull_and_process_messages_raise w [] post m e []);
      [exact Hsplit | constructor | exact Hm]. }
  assert (Hdag : dag_run w = (Raise e, w)).
  { rewrite dag_run_unfold, Hrun. reflexivity. }
  split; [exact Hdag|]. rewrite Hdag. exact Hdag.
Qed.

Lemma poison_head_blocks_every_run_witness :
  dag_run Sample.blocked = (Raise ValueError, Sample.blocked) /\
  dag_run (snd (dag_run Sample.blocked)) = (Raise ValueError, Sample.blocked).
Proof.
  apply (poison_head_blocks_every_run Sample.blocked
           (Sample.msg "a2"
              (Sample.tx 2 "PAYMENT" (VStr "not_a_number") (VInt 50) (VFloat 40)))
           [Sample.msg "a3" (Sample.payment 3)] ValueError).
  - reflexivity.
  - vm_compute. reflexivity.
  - discriminate.
Defined.

(** The target table only grows, and only by what [insert_to_bigquery]
    pulled: after the task the old rows are still there in order, followed
    either by nothing or by all the rows under ['pull_pubsub_messages'];
    when the task raises, nothing was added. *)
Theorem target_table_only_grows (w : world) :
  exists added,
    target_table (snd (insert_to_bigquery w)) = target_table w ++ added /\
    (added = [] \/
     xcom w !! "pull_pubsub_messages"%string = Some added /\
     fst (insert_to_bigquery w) = Ok tt) /\
    (forall e, fst (insert_to_bigquery w) = Raise e ->
       e = RowsInsertError /\ rows_insert_errors w = true /\ added = []).
Proof.
  unfold insert_to_bigquery, bind, xcom_pull.
  destruct (xcom w !! "pull_pubsub_messages"%string) as [[|row rows]|] eqn:Hx.
  - exists []. simpl. rewrite app_nil_r.
    split; [reflexivity|]. split; [now left|]. intros e He. discriminate.
  - destruct (rows_insert_errors w) eqn:Herr.
    + exists []. simpl. rewrite app_nil_r.
      split; [reflexivity|]. split; [now left|].
      intros e [= <-]. repeat split.
    + exists (row :: rows). simpl.
      split; [reflexivity|]. split; [right; split; reflexivity|].
      intros e He. discriminate.
  - exists []. simpl. rewrite app_nil_r.
    split; [reflexivity|]. split; [now left|]. intros e He. discriminate.
Qed.
